(** * C-Turtle: the turtle command/state engine of CTurtle.hpp

    A shallow embedding of the data model of [src/CTurtle.hpp]
    (SceneObject, PenState, Turtle, TurtleScreen) and of the member
    functions whose bodies the header carries ([setundobuffer], [dot],
    [onkeypress], [onkeyrelease], [presskey], [releasekey], [add], ...).
    Member functions that the header only declares are modelled from the
    specification, each under a comment that says so.

    Conventions.  A [std::list] is a Rocq [list] whose head is [front()]
    and whose last element is [back()].  [unsigned] quantities are [N],
    [int] quantities are [Z].  A [std::map] is a [gmap]. *)

From Stdlib Require Import ZArith NArith List Lia String SpecFloat.
From stdpp Require Import base list gmap.

Local Open Scope Z_scope.

(* ===================================================================== *)
(** ** External collaborators                                            *)
(* ===================================================================== *)

(** The motion commands of [class Turtle], all of which travel to a
    destination transform; [F] is the type of their angle arguments. *)
Module Movement.
Inductive t (F : Type) : Type :=
  | forward (pixels : Z)
  | backward (pixels : Z)
  | right (amt : F)
  | left (amt : F)
  | goTo (x y : Z)
  | setx (x : Z)
  | sety (y : Z)
  | setheading (angle : F)
  | home.
Arguments forward {F} pixels.
Arguments backward {F} pixels.
Arguments right {F} amt.
Arguments left {F} amt.
Arguments goTo {F} x y.
Arguments setx {F} x.
Arguments sety {F} y.
Arguments setheading {F} angle.
Arguments home {F}.
End Movement.

(** [enum ScreenMode]. *)
Inductive ScreenMode : Type := SM_STANDARD | SM_LOGO.

(** Types and operations that the header takes from [Common.hpp],
    [Geometry.hpp], [Color.hpp] and [UserIO.hpp]: they are consumed, not
    implemented, by the engine, and stay abstract here. *)
Class Collaborators := {
  (** [Color], with the named colours the header uses and the value of
      a default-constructed [Color()]. *)
  Color : Type;
  Color_black : Color;
  Color_white : Color;
  Color_default : Color;
  (** [AffineTransform]; [AffineTransform()] is the identity. *)
  AffineTransform : Type;
  AffineTransform_default : AffineTransform;
  (** [Point], and the translation part of a transform. *)
  Point : Type;
  getTranslation : AffineTransform -> Point;
  (** What an [IDrawableGeometry*] points to. *)
  IDrawableGeometry : Type;
  (** [new Line(a, b)] and [new Polygon(points)]. *)
  Line : Point -> Point -> IDrawableGeometry;
  Polygon : list Point -> IDrawableGeometry;
  (** [cturtle::shape("indented triangle")], the default cursor. *)
  shape_indented_triangle : IDrawableGeometry;
  (** The pixel buffer type [Image]; [Image()] is empty. *)
  Image : Type;
  Image_empty : Image;
  (** [float], with the conversion of an integer constant. *)
  float : Type;
  float_of_int : Z -> float;
  (** The transform that a motion command leads to, from the screen
      mode, the angle mode and the current transform: the affine
      transform arithmetic behind the motion commands. *)
  destination :
    Movement.t float -> ScreenMode -> bool -> AffineTransform -> AffineTransform;
  (** The state of the client program that callbacks read and write. *)
  World : Type
}.

(** [enum TurtleSpeed]. *)
Inductive TurtleSpeed : Type :=
  | TS_FASTEST | TS_FAST | TS_NORMAL | TS_SLOW | TS_SLOWEST.

Definition TurtleSpeed_value (s : TurtleSpeed) : Z :=
  match s with
  | TS_FASTEST => 0
  | TS_FAST => 10
  | TS_NORMAL => 6
  | TS_SLOW => 3
  | TS_SLOWEST => 1
  end.

(** [enum MouseButton] of UserIO.hpp: the three buttons that index
    [mouseBindings[3]]. *)
Inductive MouseButton : Type := MOUSEB_LEFT | MOUSEB_MIDDLE | MOUSEB_RIGHT.

(** [KeyboardKey] of UserIO.hpp is an enumeration; a key is its code. *)
Abbreviation KeyboardKey := Z.

(** What a call of a user callback does to the client's state: it
    returns, or it fails (in C++, it leaves by an exception) with the
    state as it was at that point. *)
Inductive Outcome (W : Type) : Type :=
  | Returned (w : W)
  | Failed (w : W).
Arguments Returned {W} w.
Arguments Failed {W} w.

Section DataModel.
Context `{Collaborators}.

(** [KeyFunc], [MouseFunc], [TimerFunc] of UserIO.hpp: callable objects
    without a result.  A callback acts on the state of the client
    program; it does not register or clear bindings while a dispatch
    loop is running over them. *)
Definition KeyFunc : Type := World -> Outcome World.
Definition MouseFunc : Type := Z -> Z -> World -> Outcome World.
Definition TimerFunc : Type := World -> Outcome World.

(** [struct SceneObject]. *)
Record SceneObject : Type := mkSceneObject {
  geom : option IDrawableGeometry;
  unownedGeom : option IDrawableGeometry;
  so_fillColor : Color;
  outlineWidth : N;
  outlineColor : Color;
  so_transform : AffineTransform;
  stamp_flag : bool;
  stampid : Z;
  text : string
}.

(** [SceneObject(IDrawableGeometry* geom, Color color, const AffineTransform& t)] *)
Definition SceneObject_geom (g : IDrawableGeometry) (color : Color)
    (t : AffineTransform) : SceneObject :=
  {| geom := Some g; unownedGeom := None; so_fillColor := color;
     outlineWidth := 0%N; outlineColor := Color_default;
     so_transform := t; stamp_flag := false; stampid := -1;
     text := EmptyString |}.

(** [SceneObject(IDrawableGeometry* geom, Color color, const AffineTransform& t, int stampid)] *)
Definition SceneObject_stamp (g : IDrawableGeometry) (color : Color)
    (t : AffineTransform) (id : Z) : SceneObject :=
  {| geom := None; unownedGeom := Some g; so_fillColor := color;
     outlineWidth := 0%N; outlineColor := Color_default;
     so_transform := t; stamp_flag := true; stampid := id;
     text := EmptyString |}.

(** [SceneObject(const std::string& text, Color color, const AffineTransform& t)] *)
Definition SceneObject_text (s : string) (color : Color)
    (t : AffineTransform) : SceneObject :=
  {| geom := None; unownedGeom := None; so_fillColor := color;
     outlineWidth := 0%N; outlineColor := Color_default;
     so_transform := t; stamp_flag := false; stampid := -1;
     text := s |}.

(** [struct PenState]. *)
Record PenState : Type := mkPenState {
  transform : AffineTransform;
  moveSpeed : float;
  tracing : bool;
  angleMode : bool;
  penWidth : Z;
  filling : bool;
  penColor : Color;
  fillColor : Color;
  objectsBefore : N;
  cursor : IDrawableGeometry;
  curStamp : Z;
  visible : bool;
  cursorTilt : float
}.

(** [PenState()], the member initialisers. *)
Definition PenState_default : PenState :=
  {| transform := AffineTransform_default;
     moveSpeed := float_of_int (TurtleSpeed_value TS_NORMAL);
     tracing := true;
     angleMode := false;
     penWidth := 1;
     filling := false;
     penColor := Color_black;
     fillColor := Color_black;
     objectsBefore := 0%N;
     cursor := shape_indented_triangle;
     curStamp := 0;
     visible := true;
     cursorTilt := float_of_int 0 |}.

(** Field updates used by the operations below. *)
Definition set_objectsBefore (n : N) (p : PenState) : PenState :=
  {| transform := transform p; moveSpeed := moveSpeed p;
     tracing := tracing p; angleMode := angleMode p;
     penWidth := penWidth p; filling := filling p;
     penColor := penColor p; fillColor := fillColor p;
     objectsBefore := n; cursor := cursor p; curStamp := curStamp p;
     visible := visible p; cursorTilt := cursorTilt p |}.

Definition set_transform (t : AffineTransform) (p : PenState) : PenState :=
  {| transform := t; moveSpeed := moveSpeed p;
     tracing := tracing p; angleMode := angleMode p;
     penWidth := penWidth p; filling := filling p;
     penColor := penColor p; fillColor := fillColor p;
     objectsBefore := objectsBefore p; cursor := cursor p;
     curStamp := curStamp p; visible := visible p;
     cursorTilt := cursorTilt p |}.

Definition set_filling (b : bool) (p : PenState) : PenState :=
  {| transform := transform p; moveSpeed := moveSpeed p;
     tracing := tracing p; angleMode := angleMode p;
     penWidth := penWidth p; filling := b;
     penColor := penColor p; fillColor := fillColor p;
     objectsBefore := objectsBefore p; cursor := cursor p;
     curStamp := curStamp p; visible := visible p;
     cursorTilt := cursorTilt p |}.

Definition set_curStamp (n : Z) (p : PenState) : PenState :=
  {| transform := transform p; moveSpeed := moveSpeed p;
     tracing := tracing p; angleMode := angleMode p;
     penWidth := penWidth p; filling := filling p;
     penColor := penColor p; fillColor := fillColor p;
     objectsBefore := objectsBefore p; cursor := cursor p;
     curStamp := n; visible := visible p;
     cursorTilt := cursorTilt p |}.

Definition set_penColor (c : Color) (p : PenState) : PenState :=
  {| transform := transform p; moveSpeed := moveSpeed p;
     tracing := tracing p; angleMode := angleMode p;
     penWidth := penWidth p; filling := filling p;
     penColor := c; fillColor := fillColor p;
     objectsBefore := objectsBefore p; cursor := cursor p;
     curStamp := curStamp p; visible := visible p;
     cursorTilt := cursorTilt p |}.

Definition set_fillColor (c : Color) (p : PenState) : PenState :=
  {| transform := transform p; moveSpeed := moveSpeed p;
     tracing := tracing p; angleMode := angleMode p;
     penWidth := penWidth p; filling := filling p;
     penColor := penColor p; fillColor := c;
     objectsBefore := objectsBefore p; cursor := cursor p;
     curStamp := curStamp p; visible := visible p;
     cursorTilt := cursorTilt p |}.

Definition set_penWidth (w : Z) (p : PenState) : PenState :=
  {| transform := transform p; moveSpeed := moveSpeed p;
     tracing := tracing p; angleMode := angleMode p;
     penWidth := w; filling := filling p;
     penColor := penColor p; fillColor := fillColor p;
     objectsBefore := objectsBefore p; cursor := cursor p;
     curStamp := curStamp p; visible := visible p;
     cursorTilt := cursorTilt p |}.

Definition set_moveSpeed (v : float) (p : PenState) : PenState :=
  {| transform := transform p; moveSpeed := v;
     tracing := tracing p; angleMode := angleMode p;
     penWidth := penWidth p; filling := filling p;
     penColor := penColor p; fillColor := fillColor p;
     objectsBefore := objectsBefore p; cursor := cursor p;
     curStamp := curStamp p; visible := visible p;
     cursorTilt := cursorTilt p |}.

Definition set_angleMode (b : bool) (p : PenState) : PenState :=
  {| transform := transform p; moveSpeed := moveSpeed p;
     tracing := tracing p; angleMode := b;
     penWidth := penWidth p; filling := filling p;
     penColor := penColor p; fillColor := fillColor p;
     objectsBefore := objectsBefore p; cursor := cursor p;
     curStamp := curStamp p; visible := visible p;
     cursorTilt := cursorTilt p |}.

(** [class Turtle], the protected members that the modelled operations
    read or write.  [fillInsert], an iterator into the screen's scene
    list, is the position it designates; [fillAccum], a [Polygon], is
    its points.  The scratch members of the travel animation
    ([travelPoints], [traveling], [fillLines]) and the turtle's list of
    iterators [objects] are read by no operation modelled here. *)
Record Turtle : Type := mkTurtle {
  stateStack : list PenState;
  fillInsert : nat;
  undoStackSize : N;
  fillAccum : list Point
}.

(** A turtle as its member initialisers leave it. *)
Definition Turtle_default : Turtle :=
  {| stateStack := [PenState_default];
     fillInsert := 0%nat;
     undoStackSize := 100%N;
     fillAccum := [] |}.

(** [class TurtleScreen], the protected members.  The canvas is the
    sequence of scene objects drawn on it since it was last cleared;
    [turtles] holds the addresses of the attached turtles;
    [keyBindings0] and [keyBindings1] are the two elements of the array
    [keyBindings[2]].  The display, the event thread, its queue
    [cachedEvents] and its mutex have no counterpart here. *)
Record TurtleScreen : Type := mkTurtleScreen {
  canvas : list SceneObject;
  lastTotalObjects : Z;
  backgroundColor : Color;
  backgroundImage : Image;
  curMode : ScreenMode;
  delayMS : Z;
  redrawCounter : Z;
  redrawCounterMax : Z;
  objects : list SceneObject;
  turtles : list nat;
  keyBindings0 : gmap KeyboardKey (list KeyFunc);
  keyBindings1 : gmap KeyboardKey (list KeyFunc);
  mouseBindings : MouseButton -> list MouseFunc;
  timerBindings : list (TimerFunc * N * N)
}.

(** A screen as its member initialisers leave it. *)
Definition TurtleScreen_default : TurtleScreen :=
  {| canvas := [];
     lastTotalObjects := 0;
     backgroundColor := Color_white;
     backgroundImage := Image_empty;
     curMode := SM_STANDARD;
     delayMS := 10;
     redrawCounter := 0;
     redrawCounterMax := 0;
     objects := [];
     turtles := [];
     keyBindings0 := ∅;
     keyBindings1 := ∅;
     mouseBindings := fun _ => [];
     timerBindings := [] |}.

(* =================================================================== *)
(** ** The undo stack                                                  *)
(* =================================================================== *)

(** Modelled from the spec: the current pen state is the top of the
    undo stack, and the stack grows at the back, so it is the back of
    the list.  The header declares the member [state] as a reference
    bound to [stateStack.front()] of the initial one-element list,
    where front and back are the same element; a reference is never
    rebound, and which element it denotes once [pushState], whose body
    is absent, has run is not visible in the header.  The properties of
    [setundobuffer], which pops at the front, are therefore stated on
    the list and not through [state]. *)
Definition state (t : Turtle) : PenState :=
  List.last (stateStack t) PenState_default.

(** An assignment to a member of the current pen state. *)
Fixpoint update_back (f : PenState -> PenState) (l : list PenState)
    : list PenState :=
  match l with
  | [] => []
  | [p] => [f p]
  | p :: rest => p :: update_back f rest
  end.

Definition with_stateStack (l : list PenState) (t : Turtle) : Turtle :=
  {| stateStack := l; fillInsert := fillInsert t;
     undoStackSize := undoStackSize t; fillAccum := fillAccum t |}.

Definition with_fill (pos : nat) (acc : list Point) (t : Turtle) : Turtle :=
  {| stateStack := stateStack t; fillInsert := pos;
     undoStackSize := undoStackSize t; fillAccum := acc |}.

Definition modify_state (f : PenState -> PenState) (t : Turtle) : Turtle :=
  with_stateStack (update_back f (stateStack t)) t.

(** The loop [while(stateStack.size() > size) stateStack.pop_front();]:
    every iteration removes the front element. *)
Fixpoint pop_front_while (size : N) (l : list PenState) : list PenState :=
  match l with
  | [] => []
  | _ :: rest =>
      if (size <? N.of_nat (length l))%N then pop_front_while size rest
      else l
  end.

(** [Turtle::setundobuffer(unsigned int size)]. *)
Definition setundobuffer (size : N) (t : Turtle) : Turtle :=
  let size := if (size <? 1)%N then 1%N else size in
  {| stateStack := pop_front_while size (stateStack t);
     fillInsert := fillInsert t;
     undoStackSize := size;
     fillAccum := fillAccum t |}.

(** [Turtle::undobufferentries()]. *)
Definition undobufferentries (t : Turtle) : N :=
  N.of_nat (length (stateStack t)).

Definition with_objects (l : list SceneObject) (scr : TurtleScreen)
    : TurtleScreen :=
  {| canvas := canvas scr; lastTotalObjects := lastTotalObjects scr;
     backgroundColor := backgroundColor scr;
     backgroundImage := backgroundImage scr; curMode := curMode scr;
     delayMS := delayMS scr; redrawCounter := redrawCounter scr;
     redrawCounterMax := redrawCounterMax scr;
     objects := l; turtles := turtles scr;
     keyBindings0 := keyBindings0 scr; keyBindings1 := keyBindings1 scr;
     mouseBindings := mouseBindings scr;
     timerBindings := timerBindings scr |}.

(** What the member initialisers establish and [setundobuffer] keeps:
    the undo stack is not empty and its capacity is at least 1. *)
Definition well_formed (t : Turtle) : Prop :=
  stateStack t <> [] /\ (1 <= undoStackSize t)%N.

(** Modelled from the spec: the body of [Turtle::pushState] is not in
    the header.  It copies the current top state, sets the copy's
    [objectsBefore] to the current length of the scene log and makes
    the copy the new top; when the stack then exceeds its capacity the
    oldest entries are discarded first. *)
Definition pushState (t : Turtle) (scr : TurtleScreen) : Turtle :=
  let copy :=
    set_objectsBefore (N.of_nat (length (objects scr))) (state t) in
  with_stateStack
    (pop_front_while (undoStackSize t) (stateStack t ++ [copy])) t.

(** Modelled from the spec: the body of [Turtle::undo] is not in the
    header.  It removes the top state, unless only one remains, and
    truncates the scene log back to the [objectsBefore] length of the
    removed state; the pen-state quantities are then those of the
    restored top.  The result says whether a state was removed.  The
    reverse animation ([travelBack]) appends nothing and has no
    counterpart here. *)
Definition undo (t : Turtle) (scr : TurtleScreen)
    : bool * Turtle * TurtleScreen :=
  match stateStack t with
  | [] | [_] => (false, t, scr)
  | _ =>
      let n := N.to_nat (objectsBefore (state t)) in
      (true,
       with_stateStack (removelast (stateStack t)) t,
       with_objects (take n (objects scr)) scr)
  end.

(* =================================================================== *)
(** ** Attribute commands (bodies in the header)                       *)
(* =================================================================== *)

(** [Turtle::fillcolor(Color c)] *)
Definition fillcolor (c : Color) (t : Turtle) (scr : TurtleScreen) : Turtle :=
  modify_state (set_fillColor c) (pushState t scr).

(** [Turtle::pencolor(Color c)] *)
Definition pencolor (c : Color) (t : Turtle) (scr : TurtleScreen) : Turtle :=
  modify_state (set_penColor c) (pushState t scr).

(** [Turtle::width(int pixels)] *)
Definition width (pixels : Z) (t : Turtle) (scr : TurtleScreen) : Turtle :=
  modify_state (set_penWidth pixels) (pushState t scr).

(** [Turtle::speed(float val)] *)
Definition speed (val : float) (t : Turtle) (scr : TurtleScreen) : Turtle :=
  modify_state (set_moveSpeed val) (pushState t scr).

(** [Turtle::degrees()] *)
Definition degrees (t : Turtle) (scr : TurtleScreen) : Turtle :=
  modify_state (set_angleMode false) (pushState t scr).

(** [Turtle::radians()] *)
Definition radians (t : Turtle) (scr : TurtleScreen) : Turtle :=
  modify_state (set_angleMode true) (pushState t scr).

(* =================================================================== *)
(** ** Drawing commands                                                *)
(* =================================================================== *)

Definition push_back_object (o : SceneObject) (scr : TurtleScreen)
    : TurtleScreen :=
  with_objects (objects scr ++ [o]) scr.

(** Modelled from the spec: the body of [Turtle::travelTo] is not in the
    header.  Whatever the animation shows on the way, what it commits is:
    when tracing, one trace line from the current position to the
    destination, tagged with the pre-mutation transform; when filling,
    the destination as a further vertex of the fill accumulator; then
    the destination becomes the transform of the pen state. *)
Definition travelTo (dest : AffineTransform) (t : Turtle)
    (scr : TurtleScreen) : Turtle * TurtleScreen :=
  let st := state t in
  let a := getTranslation (transform st) in
  let b := getTranslation dest in
  let scr' :=
    if tracing st
    then push_back_object
           (SceneObject_geom (Line a b) (penColor st) (transform st)) scr
    else scr in
  let t' :=
    if filling st then with_fill (fillInsert t) (fillAccum t ++ [b]) t
    else t in
  (modify_state (set_transform dest) t', scr').

(** Modelled from the spec: the bodies of the motion commands are not in
    the header.  Each pushes the pen state once, then travels to the
    destination of the movement. *)
Definition move (m : Movement.t float) (t : Turtle) (scr : TurtleScreen)
    : Turtle * TurtleScreen :=
  let t1 := pushState t scr in
  let st := state t1 in
  travelTo (destination m (curMode scr) (angleMode st) (transform st))
           t1 scr.

(** The scene list with [o] inserted before position [pos]
    ([std::list::insert] at an iterator). *)
Definition insert_at (pos : nat) (o : SceneObject) (l : list SceneObject)
    : list SceneObject :=
  take pos l ++ o :: drop pos l.

(** Modelled from the spec: the body of [Turtle::fill] is not in the
    header, whose comment reads: if the input is false but the prior
    state is true, a SceneObject is put on the screen in the shape of
    the previously captured points.  Turning fill on remembers the
    current end of the scene log and starts accumulating the endpoints
    of the movements that follow; turning it off, only if it was on,
    inserts one polygon of the accumulated points, in the fill colour,
    at the remembered position. *)
Definition fill (val : bool) (t : Turtle) (scr : TurtleScreen)
    : Turtle * TurtleScreen :=
  let was_filling := filling (state t) in
  let t1 := pushState t scr in
  let '(t2, scr2) :=
    if was_filling && negb val then
      (with_fill (fillInsert t1) [] t1,
       with_objects
         (insert_at (fillInsert t1)
            (SceneObject_geom (Polygon (fillAccum t1))
               (fillColor (state t1)) AffineTransform_default)
            (objects scr))
         scr)
    else if val then
      (with_fill (length (objects scr)) [] t1, scr)
    else (t1, scr) in
  (modify_state (set_filling val) t2, scr2).


(** Modelled from the spec: the body of [Turtle::write] is not in the
    header.  It appends a text record in the current fill colour. *)
Definition write (s : string) (t : Turtle) (scr : TurtleScreen)
    : Turtle * TurtleScreen :=
  let t1 := pushState t scr in
  let st := state t1 in
  (t1, push_back_object
         (SceneObject_text s (fillColor st) (transform st)) scr).

(** Modelled from the spec: the body of [Turtle::stamp] is not in the
    header.  It appends a record that refers to the current cursor
    geometry, gives it the next stamp id, the counter [curStamp] of the
    pen state, which starts at 0 and is incremented, and returns that
    id. *)
Definition stamp (t : Turtle) (scr : TurtleScreen)
    : Z * Turtle * TurtleScreen :=
  let t1 := pushState t scr in
  let st := state t1 in
  let id := curStamp st in
  (id,
   modify_state (set_curStamp (id + 1)) t1,
   push_back_object
     (SceneObject_stamp (cursor st) (fillColor st) (transform st) id) scr).

(** Erasing from a [std::list] every element that satisfies [p]: the
    loop visits the elements from front to back and erases in place. *)
Fixpoint erase_if (p : SceneObject -> bool) (l : list SceneObject)
    : list SceneObject :=
  match l with
  | [] => []
  | o :: rest => if p o then erase_if p rest else o :: erase_if p rest
  end.

(** Modelled from the spec: the body of [Turtle::clearstamp] is not in
    the header.  It removes the stamp record with the given id. *)
Definition clearstamp (id : Z) (scr : TurtleScreen) : TurtleScreen :=
  with_objects
    (erase_if (fun o => stamp_flag o && (stampid o =? id)) (objects scr))
    scr.

(** Modelled from the spec: the body of [Turtle::clearstamps] is not in
    the header, whose comment reads: removes all stamps with an ID less
    than that which is specified; if the specified stampid is less than
    0, it removes ALL stamps.  The scene log is taken to hold the
    records of this one turtle, whose stamp ids they carry. *)
Definition clearstamps (id : Z) (scr : TurtleScreen) : TurtleScreen :=
  with_objects
    (erase_if
       (fun o => stamp_flag o && ((id <? 0) || (stampid o <? id)))
       (objects scr))
    scr.

(** [clearstamps()], with the default argument of the declaration. *)
Definition clearstamps_default : TurtleScreen -> TurtleScreen :=
  clearstamps (-1).

Section Dot.
(** [Turtle::circle(int radius, int steps, Color color)], whose body
    is not in the header. *)
Variable circle :
  Z -> Z -> Color -> Turtle -> TurtleScreen -> Turtle * TurtleScreen.

(** [Turtle::dot(Color color, int size = 10)]; [/] on [int] truncates
    towards zero. *)
Definition dot (color : Color) (size : Z) (t : Turtle)
    (scr : TurtleScreen) : Turtle * TurtleScreen :=
  circle (size ÷ 2) 4 color t scr.

(** [dot(color)], with the default argument of the declaration. *)
Definition dot_default (color : Color) :=
  dot color 10.
End Dot.

(* =================================================================== *)
(** ** Commands of one turtle                                          *)
(* =================================================================== *)

(** The public operations of a turtle that are embedded above, as a
    command language, so that properties can range over sequences of
    calls. *)
Inductive Command : Type :=
  | CMove (m : Movement.t float)
  | CFillColor (c : Color)
  | CPenColor (c : Color)
  | CWidth (pixels : Z)
  | CSpeed (val : float)
  | CDegrees
  | CRadians
  | CFill (val : bool)
  | CWrite (s : string)
  | CStamp
  | CClearStamp (id : Z)
  | CClearStamps (id : Z)
  | CSetUndoBuffer (size : N)
  | CUndo.

(** One call: the turtle and its screen afterwards, and the stamp id
    when the call was [stamp()]. *)
Definition exec (c : Command) (t : Turtle) (scr : TurtleScreen)
    : option Z * Turtle * TurtleScreen :=
  match c with
  | CMove m => let '(t', scr') := move m t scr in (None, t', scr')
  | CFillColor c => (None, fillcolor c t scr, scr)
  | CPenColor c => (None, pencolor c t scr, scr)
  | CWidth px => (None, width px t scr, scr)
  | CSpeed v => (None, speed v t scr, scr)
  | CDegrees => (None, degrees t scr, scr)
  | CRadians => (None, radians t scr, scr)
  | CFill b => let '(t', scr') := fill b t scr in (None, t', scr')
  | CWrite s => let '(t', scr') := write s t scr in (None, t', scr')
  | CStamp => let '(id, t', scr') := stamp t scr in (Some id, t', scr')
  | CClearStamp id => (None, t, clearstamp id scr)
  | CClearStamps id => (None, t, clearstamps id scr)
  | CSetUndoBuffer size => (None, setundobuffer size t, scr)
  | CUndo => let '(_, t', scr') := undo t scr in (None, t', scr')
  end.

(** A sequence of calls, with the stamp ids returned, in call order. *)
Fixpoint run (cs : list Command) (t : Turtle) (scr : TurtleScreen)
    : list Z * Turtle * TurtleScreen :=
  match cs with
  | [] => ([], t, scr)
  | c :: rest =>
      let '(r, t1, scr1) := exec c t scr in
      let '(ids, t2, scr2) := run rest t1 scr1 in
      (match r with Some id => id :: ids | None => ids end, t2, scr2)
  end.

(** A sequence of movements. *)
Fixpoint moves (ms : list (Movement.t float)) (t : Turtle)
    (scr : TurtleScreen) : Turtle * TurtleScreen :=
  match ms with
  | [] => (t, scr)
  | m :: rest => let '(t1, scr1) := move m t scr in moves rest t1 scr1
  end.

(* =================================================================== *)
(** ** The screen                                                      *)
(* =================================================================== *)

(** [TurtleScreen::add(Turtle& turtle)] *)
Definition add (turtle : nat) (scr : TurtleScreen) : TurtleScreen :=
  {| canvas := canvas scr; lastTotalObjects := lastTotalObjects scr;
     backgroundColor := backgroundColor scr;
     backgroundImage := backgroundImage scr; curMode := curMode scr;
     delayMS := delayMS scr; redrawCounter := redrawCounter scr;
     redrawCounterMax := redrawCounterMax scr;
     objects := objects scr; turtles := turtles scr ++ [turtle];
     keyBindings0 := keyBindings0 scr; keyBindings1 := keyBindings1 scr;
     mouseBindings := mouseBindings scr;
     timerBindings := timerBindings scr |}.

(** [TurtleScreen::getScene()] *)
Definition getScene (scr : TurtleScreen) : list SceneObject := objects scr.

Definition with_keyBindings
    (b0 b1 : gmap KeyboardKey (list KeyFunc)) (scr : TurtleScreen)
    : TurtleScreen :=
  {| canvas := canvas scr; lastTotalObjects := lastTotalObjects scr;
     backgroundColor := backgroundColor scr;
     backgroundImage := backgroundImage scr; curMode := curMode scr;
     delayMS := delayMS scr; redrawCounter := redrawCounter scr;
     redrawCounterMax := redrawCounterMax scr;
     objects := objects scr; turtles := turtles scr;
     keyBindings0 := b0; keyBindings1 := b1;
     mouseBindings := mouseBindings scr;
     timerBindings := timerBindings scr |}.

(** The two statements on a binding table [m] that [onkeypress] and
    [onkeyrelease] share: create the list of the key when [find] does
    not find it, then [push_back] the function. *)
Definition bind_key (func : KeyFunc) (key : KeyboardKey)
    (m : gmap KeyboardKey (list KeyFunc)) : gmap KeyboardKey (list KeyFunc) :=
  let m1 :=
    match m !! key with
    | None => <[key := []]> m
    | Some _ => m
    end in
  <[key := (m1 !!! key) ++ [func]]> m1.

(** [TurtleScreen::onkeypress(KeyFunc func, KeyboardKey key)] *)
Definition onkeypress (func : KeyFunc) (key : KeyboardKey)
    (scr : TurtleScreen) : TurtleScreen :=
  with_keyBindings (bind_key func key (keyBindings0 scr))
                   (keyBindings1 scr) scr.

(** [TurtleScreen::onkeyrelease(KeyFunc func, KeyboardKey key)] *)
Definition onkeyrelease (func : KeyFunc) (key : KeyboardKey)
    (scr : TurtleScreen) : TurtleScreen :=
  with_keyBindings (keyBindings0 scr)
                   (bind_key func key (keyBindings1 scr)) scr.

(** The loop [for(KeyFunc& func : list){ func(); }] on the client's
    state: the functions that were called, in call order, and how the
    loop ended.  Nothing in the loop catches a failure of [func()], so
    a failure leaves the loop, and the function that called it. *)
Fixpoint call_each (fs : list KeyFunc) (w : World)
    : list KeyFunc * Outcome World :=
  match fs with
  | [] => ([], Returned w)
  | func :: rest =>
      match func w with
      | Returned w' =>
          let '(called, o) := call_each rest w' in (func :: called, o)
      | Failed w' => ([func], Failed w')
      end
  end.

(** [TurtleScreen::presskey(KeyboardKey key)] *)
Definition presskey (key : KeyboardKey) (scr : TurtleScreen) (w : World)
    : list KeyFunc * Outcome World :=
  match keyBindings0 scr !! key with
  | None => ([], Returned w)
  | Some fs => call_each fs w
  end.

(** [TurtleScreen::releasekey(KeyboardKey key)] *)
Definition releasekey (key : KeyboardKey) (scr : TurtleScreen) (w : World)
    : list KeyFunc * Outcome World :=
  match keyBindings1 scr !! key with
  | None => ([], Returned w)
  | Some fs => call_each fs w
  end.

(** The callbacks bound to a key, in each registry. *)
Definition bound0 (key : KeyboardKey) (scr : TurtleScreen) : list KeyFunc :=
  default [] (keyBindings0 scr !! key).
Definition bound1 (key : KeyboardKey) (scr : TurtleScreen) : list KeyFunc :=
  default [] (keyBindings1 scr !! key).

(** Modelled from the spec: the body of [TurtleScreen::redraw] is not in
    the header.  If [invalidate] is true or the scene log is shorter
    than at the last redraw, the whole canvas is rebuilt from the full
    scene log; otherwise the records appended since [lastTotalObjects]
    are drawn on top of the existing canvas.  In both cases
    [lastTotalObjects] becomes the length of the log. *)
Definition redraw (invalidate : bool) (scr : TurtleScreen) : TurtleScreen :=
  let total := Z.of_nat (length (objects scr)) in
  let drawn :=
    if invalidate || (total <? lastTotalObjects scr)
    then objects scr
    else canvas scr ++ drop (Z.to_nat (lastTotalObjects scr)) (objects scr) in
  {| canvas := drawn; lastTotalObjects := total;
     backgroundColor := backgroundColor scr;
     backgroundImage := backgroundImage scr; curMode := curMode scr;
     delayMS := delayMS scr; redrawCounter := redrawCounter scr;
     redrawCounterMax := redrawCounterMax scr;
     objects := objects scr; turtles := turtles scr;
     keyBindings0 := keyBindings0 scr; keyBindings1 := keyBindings1 scr;
     mouseBindings := mouseBindings scr;
     timerBindings := timerBindings scr |}.

(** Modelled from the spec: the body of [TurtleScreen::clearscreen] is
    not in the header.  It empties the scene log, clears all key, mouse
    and timer bindings and resets the background to the plain default,
    white without an image; the attached turtles stay attached. *)
Definition clearscreen (scr : TurtleScreen) : TurtleScreen :=
  {| canvas := canvas scr; lastTotalObjects := lastTotalObjects scr;
     backgroundColor := Color_white;
     backgroundImage := Image_empty; curMode := curMode scr;
     delayMS := delayMS scr; redrawCounter := redrawCounter scr;
     redrawCounterMax := redrawCounterMax scr;
     objects := []; turtles := turtles scr;
     keyBindings0 := ∅; keyBindings1 := ∅;
     mouseBindings := fun _ => [];
     timerBindings := [] |}.

(* =================================================================== *)
(** ** Further members with bodies in the header                       *)
(* =================================================================== *)

Definition set_tracing (b : bool) (p : PenState) : PenState :=
  {| transform := transform p; moveSpeed := moveSpeed p;
     tracing := b; angleMode := angleMode p;
     penWidth := penWidth p; filling := filling p;
     penColor := penColor p; fillColor := fillColor p;
     objectsBefore := objectsBefore p; cursor := cursor p;
     curStamp := curStamp p; visible := visible p;
     cursorTilt := cursorTilt p |}.

Definition set_cursor (g : IDrawableGeometry) (p : PenState) : PenState :=
  {| transform := transform p; moveSpeed := moveSpeed p;
     tracing := tracing p; angleMode := angleMode p;
     penWidth := penWidth p; filling := filling p;
     penColor := penColor p; fillColor := fillColor p;
     objectsBefore := objectsBefore p; cursor := g;
     curStamp := curStamp p; visible := visible p;
     cursorTilt := cursorTilt p |}.

Definition set_visible (b : bool) (p : PenState) : PenState :=
  {| transform := transform p; moveSpeed := moveSpeed p;
     tracing := tracing p; angleMode := angleMode p;
     penWidth := penWidth p; filling := filling p;
     penColor := penColor p; fillColor := fillColor p;
     objectsBefore := objectsBefore p; cursor := cursor p;
     curStamp := curStamp p; visible := b;
     cursorTilt := cursorTilt p |}.

Definition set_cursorTilt (a : float) (p : PenState) : PenState :=
  {| transform := transform p; moveSpeed := moveSpeed p;
     tracing := tracing p; angleMode := angleMode p;
     penWidth := penWidth p; filling := filling p;
     penColor := penColor p; fillColor := fillColor p;
     objectsBefore := objectsBefore p; cursor := cursor p;
     curStamp := curStamp p; visible := visible p;
     cursorTilt := a |}.

(** [PenState(const PenState& copy)]: the members get their default
    initialisers, then the body assigns them one by one, in this
    order. *)
Definition PenState_copy (copy : PenState) : PenState :=
  let p := PenState_default in
  let p := set_transform (transform copy) p in
  let p := set_moveSpeed (moveSpeed copy) p in
  let p := set_tracing (tracing copy) p in
  let p := set_angleMode (angleMode copy) p in
  let p := set_penWidth (penWidth copy) p in
  let p := set_filling (filling copy) p in
  let p := set_penColor (penColor copy) p in
  let p := set_fillColor (fillColor copy) p in
  let p := set_cursor (cursor copy) p in
  let p := set_curStamp (curStamp copy) p in
  let p := set_visible (visible copy) p in
  let p := set_cursorTilt (cursorTilt copy) p in
  set_objectsBefore (objectsBefore copy) p.

(** [Color Turtle::fillcolor()] *)
Definition fillcolor_get (t : Turtle) : Color := fillColor (state t).

(** [Color Turtle::pencolor()] *)
Definition pencolor_get (t : Turtle) : Color := penColor (state t).

(** [int Turtle::width()] *)
Definition width_get (t : Turtle) : Z := penWidth (state t).

(** [float Turtle::speed()] *)
Definition speed_get (t : Turtle) : float := moveSpeed (state t).

(** The undo stack is not empty and holds no more entries than its
    capacity, which is at least 1. *)
Definition within_capacity (t : Turtle) : Prop :=
  well_formed t /\ (undobufferentries t <= undoStackSize t)%N.

Definition is_setundobuffer (c : Command) : bool :=
  match c with CSetUndoBuffer _ => true | _ => false end.

(** The calls of the attribute setters whose bodies are in the header. *)
Definition is_attribute_setter (c : Command) : bool :=
  match c with
  | CFillColor _ | CPenColor _ | CWidth _ | CSpeed _ | CDegrees | CRadians =>
      true
  | _ => false
  end.

Definition MouseButton_eqb (a b : MouseButton) : bool :=
  match a, b with
  | MOUSEB_LEFT, MOUSEB_LEFT
  | MOUSEB_MIDDLE, MOUSEB_MIDDLE
  | MOUSEB_RIGHT, MOUSEB_RIGHT => true
  | _, _ => false
  end.

(** [TurtleScreen::onclick(MouseFunc func, MouseButton button)]:
    [mouseBindings[button].push_back(func)]. *)
Definition onclick (func : MouseFunc) (button : MouseButton)
    (scr : TurtleScreen) : TurtleScreen :=
  {| canvas := canvas scr; lastTotalObjects := lastTotalObjects scr;
     backgroundColor := backgroundColor scr;
     backgroundImage := backgroundImage scr; curMode := curMode scr;
     delayMS := delayMS scr; redrawCounter := redrawCounter scr;
     redrawCounterMax := redrawCounterMax scr;
     objects := objects scr; turtles := turtles scr;
     keyBindings0 := keyBindings0 scr; keyBindings1 := keyBindings1 scr;
     mouseBindings :=
       (fun b => if MouseButton_eqb b button
                 then mouseBindings scr b ++ [func]
                 else mouseBindings scr b);
     timerBindings := timerBindings scr |}.

(** [onclick(func)], with the default argument of the declaration. *)
Definition onclick_default (func : MouseFunc) : TurtleScreen -> TurtleScreen :=
  onclick func MOUSEB_LEFT.

(** [TurtleScreen::click(int x, int y, MouseButton button)]: the loop
    [for(MouseFunc& func : mouseBindings[button]){ func(x, y); }]. *)
Definition click (x y : Z) (button : MouseButton) (scr : TurtleScreen)
    (w : World) : list KeyFunc * Outcome World :=
  call_each (List.map (fun func : MouseFunc => func x y)
                      (mouseBindings scr button)) w.

(** Registering the callbacks of a list, one call of [onkeypress] each,
    in list order. *)
Definition onkeypress_all (fs : list KeyFunc) (key : KeyboardKey)
    (scr : TurtleScreen) : TurtleScreen :=
  fold_left (fun s func => onkeypress func key s) fs scr.

End DataModel.

(* ===================================================================== *)
(** ** The animation duration, in binary32                               *)
(* ===================================================================== *)

(** The C++ type [float] as IEEE 754 binary32: 24 bits of precision,
    infinities at exponent 128, operations rounded to nearest even. *)
Module Binary32.

Definition prec : Z := 24.
Definition emax : Z := 128.

(** The conversion of an [int] to [float], and the [float] literals with
    an integer value. *)
Definition of_int (z : Z) : spec_float := binary_normalize prec emax z 0 false.

Definition sub : spec_float -> spec_float -> spec_float := SFsub prec emax.
Definition div : spec_float -> spec_float -> spec_float := SFdiv prec emax.
Definition mul : spec_float -> spec_float -> spec_float := SFmul prec emax.

(** The conversion [long(x)] to a [long] of [bits] bits: the value
    truncated towards zero.  It is undefined, [None], for a NaN, for an
    infinity and when the truncated value is not a [long]. *)
Definition to_long (bits : Z) (x : spec_float) : option Z :=
  match x with
  | S754_zero _ => Some 0
  | S754_finite s m e =>
      let magnitude :=
        match e with
        | Zneg _ => Z.shiftr (Zpos m) (- e)
        | _ => Z.shiftl (Zpos m) e
        end in
      let v := if s then - magnitude else magnitude in
      if (- 2 ^ (bits - 1) <=? v) && (v <? 2 ^ (bits - 1))
      then Some v else None
  | S754_infinity _ | S754_nan => None
  end.

End Binary32.

(** [Turtle::getAnimMS()], as a function of the value of
    [state.moveSpeed] and of the width of [long]:
    [state.moveSpeed <= 0 ? 0 : long(((11.0f - state.moveSpeed)/10.0f) * 300)]. *)
Definition getAnimMS (bits : Z) (moveSpeed : spec_float) : option Z :=
  if SFleb moveSpeed (Binary32.of_int 0) then Some 0
  else Binary32.to_long bits
         (Binary32.mul
            (Binary32.div (Binary32.sub (Binary32.of_int 11) moveSpeed)
                          (Binary32.of_int 10))
            (Binary32.of_int 300)).

(* ===================================================================== *)
(** ** A concrete instance, for worked examples                          *)
(* ===================================================================== *)

(** Colours are numbers, a transform is its translation, a geometry is a
    list of points, angles are whole numbers, and the client's state is
    the list of marks that its callbacks have left. *)
Definition plain_destination (m : Movement.t Z) (mode : ScreenMode)
    (radians : bool) (t : Z * Z) : Z * Z :=
  match m with
  | Movement.forward px => (fst t + px, snd t)
  | Movement.backward px => (fst t - px, snd t)
  | Movement.goTo x y => (x, y)
  | Movement.setx x => (x, snd t)
  | Movement.sety y => (fst t, y)
  | Movement.home => (0, 0)
  | Movement.right _ | Movement.left _ | Movement.setheading _ => t
  end.

Definition plain : Collaborators :=
  {| Color := Z;
     Color_black := 0;
     Color_white := 16777215;
     Color_default := 0;
     AffineTransform := Z * Z;
     AffineTransform_default := (0, 0);
     Point := Z * Z;
     getTranslation := fun t => t;
     IDrawableGeometry := list (Z * Z);
     Line := fun a b => [a; b];
     Polygon := fun ps => ps;
     shape_indented_triangle := [(0, 0); (-5, -9); (0, -7); (5, -9)];
     Image := unit;
     Image_empty := tt;
     float := Z;
     float_of_int := fun z => z;
     destination := plain_destination;
     World := list Z |}.

(** Two callbacks of the plain instance: one leaves its mark and fails,
    the other leaves its mark and returns. *)
Definition failing_mark (n : Z) : @KeyFunc plain :=
  fun w => Failed (w ++ [n]).
Definition mark (n : Z) : @KeyFunc plain :=
  fun w => Returned (w ++ [n]).

(** A fresh turtle and a fresh screen of the plain instance. *)
Definition plain_turtle : @Turtle plain := Turtle_default.
Definition plain_screen : @TurtleScreen plain := TurtleScreen_default.

(** The turtle and the screen after [forward(10); goTo(5, 5)]. *)
Definition plain_drawn : @Turtle plain * @TurtleScreen plain :=
  moves [Movement.forward 10; Movement.goTo 5 5] plain_turtle plain_screen.

(** The turtle and the screen after two stamps, a movement and a third
    stamp. *)
Definition plain_stamped : @Turtle plain * @TurtleScreen plain :=
  let '(_, t, scr) :=
    run [CStamp; CStamp; CMove (Movement.forward 10); CStamp]
        plain_turtle plain_screen in
  (t, scr).



(** A screen with two callbacks on key 3 that return, and a screen whose
    first callback on key 3 fails. *)
Definition plain_bound : @TurtleScreen plain :=
  onkeypress (mark 2) 3 (onkeypress (mark 1) 3 plain_screen).
Definition plain_bound_failing : @TurtleScreen plain :=
  onkeypress (mark 2) 3 (onkeypress (failing_mark 1) 3 plain_screen).

(** A stand-in for [circle] on the plain instance: it records its radius
    and its number of steps as one polygon. *)
Definition plain_circle (radius steps : Z) (c : Z) (t : @Turtle plain)
    (scr : @TurtleScreen plain) : @Turtle plain * @TurtleScreen plain :=
  (t, @push_back_object plain
        (@SceneObject_geom plain [(radius, steps)] c (0, 0)) scr).

(** A mouse callback of the plain instance that leaves the sum of the
    coordinates as its mark. *)
Definition mark_click : @MouseFunc plain :=
  fun x y w => Returned (w ++ [x + y]).

(* ===================================================================== *)
(** ** Properties                                                        *)
(* ===================================================================== *)

Section Properties.
Context `{Collaborators}.

(** *** The undo stack as a list *)

Lemma pop_front_while_drop (size : N) (l : list PenState) :
  pop_front_while size l = drop (length l - N.to_nat size) l.
Proof.
  induction l as [|p l IH]; [done|].
  cbn [pop_front_while].
  destruct (N.ltb_spec size (N.of_nat (length (p :: l)))) as [Hlt|Hge].
  - rewrite IH. cbn [length] in *.
    replace (S (length l) - N.to_nat size)%nat
      with (S (length l - N.to_nat size)) by lia.
    done.
  - cbn [length] in *.
    replace (S (length l) - N.to_nat size)%nat with 0%nat by lia.
    done.
Qed.

Lemma pop_front_while_length (size : N) (l : list PenState) :
  length (pop_front_while size l) = Nat.min (length l) (N.to_nat size).
Proof. rewrite pop_front_while_drop, length_drop. lia. Qed.

Lemma pop_front_while_snoc (size : N) (l : list PenState) (p : PenState) :
  (1 <= size)%N ->
  pop_front_while size (l ++ [p])
  = drop (S (length l) - N.to_nat size) l ++ [p].
Proof.
  intros Hsize. rewrite pop_front_while_drop, length_app. cbn [length].
  replace (length l + 1 - N.to_nat size)%nat
    with (S (length l) - N.to_nat size)%nat by lia.
  rewrite drop_app_le by lia. done.
Qed.

Lemma update_back_snoc (f : PenState -> PenState) l p :
  update_back f (l ++ [p]) = l ++ [f p].
Proof.
  induction l as [|q l IH]; [done|].
  cbn [app update_back]. rewrite IH.
  destruct l; done.
Qed.

Lemma stack_snoc (l : list PenState) :
  l <> [] -> exists older p, l = older ++ [p].
Proof.
  intros Hne. destruct (exists_last Hne) as (older & p & ->). eauto.
Qed.

Lemma state_snoc (t : Turtle) older p :
  stateStack t = older ++ [p] -> state t = p.
Proof. unfold state. intros ->. apply List.last_last. Qed.

(** *** pushState and assignments to the current state *)

Lemma pushState_stack (t : Turtle) (scr : TurtleScreen) :
  well_formed t ->
  stateStack (pushState t scr)
  = drop (S (length (stateStack t)) - N.to_nat (undoStackSize t))
         (stateStack t)
    ++ [set_objectsBefore (N.of_nat (length (objects scr))) (state t)].
Proof.
  intros [_ Hcap]. unfold pushState. cbn [stateStack with_stateStack].
  by apply pop_front_while_snoc.
Qed.

Lemma pushState_state (t : Turtle) (scr : TurtleScreen) :
  well_formed t ->
  state (pushState t scr)
  = set_objectsBefore (N.of_nat (length (objects scr))) (state t).
Proof.
  intros Hwf. eapply state_snoc. by apply pushState_stack.
Qed.

Lemma pushState_well_formed (t : Turtle) (scr : TurtleScreen) :
  well_formed t -> well_formed (pushState t scr).
Proof.
  intros Hwf. split.
  - rewrite pushState_stack by done. by destruct (drop _ _).
  - apply Hwf.
Qed.

Lemma pushState_fill (t : Turtle) (scr : TurtleScreen) :
  fillInsert (pushState t scr) = fillInsert t
  /\ fillAccum (pushState t scr) = fillAccum t.
Proof. done. Qed.

Lemma modify_state_state (f : PenState -> PenState) (t : Turtle) :
  well_formed t -> state (modify_state f t) = f (state t).
Proof.
  intros [Hne _]. destruct (stack_snoc _ Hne) as (older & p & Hst).
  rewrite (state_snoc t older p Hst).
  eapply state_snoc. unfold modify_state. cbn [stateStack with_stateStack].
  rewrite Hst. apply update_back_snoc.
Qed.

Lemma modify_state_well_formed (f : PenState -> PenState) (t : Turtle) :
  well_formed t -> well_formed (modify_state f t).
Proof.
  intros [Hne Hcap]. split; [|done].
  destruct (stack_snoc _ Hne) as (older & p & Hst).
  unfold modify_state. cbn [stateStack with_stateStack].
  rewrite Hst, update_back_snoc. by destruct older.
Qed.

Lemma with_fill_state pos acc (t : Turtle) :
  state (with_fill pos acc t) = state t.
Proof. done. Qed.


Lemma Turtle_default_well_formed : well_formed Turtle_default.
Proof. split; [done | cbn; lia]. Qed.

(** *** Undo buffer size *)

(** C4.  For every size argument M, [setundobuffer(M)] succeeds: it
    clamps M to at least 1 and records the clamped value as capacity;
    at most that many entries remain; they are the entries at the back
    of the list, in their order, the discarded ones being those at the
    front.  The stack grows at the back, so the entries that remain
    are the most recently pushed ones and the oldest are discarded
    first: every run of entries at the back that is no longer than the
    clamped size stays in the stack, at its back, and what is in front
    of it afterwards was in front of it before. *)
Theorem setundobuffer_keeps_most_recent (M : N) (t : Turtle) :
  let M' := N.max M 1 in
  let t' := setundobuffer M t in
  undoStackSize t' = M'
  /\ (N.of_nat (length (stateStack t')) <= M')%N
  /\ length (stateStack t') = Nat.min (length (stateStack t)) (N.to_nat M')
  /\ stateStack t'
     = drop (length (stateStack t) - N.to_nat M') (stateStack t)
  /\ (exists oldest, stateStack t = oldest ++ stateStack t')
  /\ (forall older recent : list PenState,
        stateStack t = older ++ recent ->
        (length recent <= N.to_nat M')%nat ->
        exists discarded kept,
          older = discarded ++ kept
          /\ stateStack t' = kept ++ recent).
Proof.
  intros M' t'.
  assert (Hclamp : (if (M <? 1)%N then 1%N else M) = M').
  { subst M'. destruct (N.ltb_spec M 1); lia. }
  assert (Hstack : stateStack t' = pop_front_while M' (stateStack t)).
  { subst t'. unfold setundobuffer. cbn [stateStack]. by rewrite Hclamp. }
  split_and!.
  - subst t'. unfold setundobuffer. cbn [undoStackSize]. done.
  - rewrite Hstack, pop_front_while_length. lia.
  - by rewrite Hstack, pop_front_while_length.
  - by rewrite Hstack, pop_front_while_drop.
  - exists (take (length (stateStack t) - N.to_nat M') (stateStack t)).
    rewrite Hstack, pop_front_while_drop. by rewrite take_drop.
  - intros older recent Hst Hlen.
    set (k := (length (stateStack t) - N.to_nat M')%nat).
    assert (Hk : (k <= length older)%nat).
    { subst k. rewrite Hst, length_app. lia. }
    exists (take k older), (drop k older). split; [by rewrite take_drop|].
    rewrite Hstack, pop_front_while_drop. fold k.
    rewrite Hst. by apply drop_app_le.
Qed.

(** *** Undo *)

Lemma undo_pops (t : Turtle) (scr : TurtleScreen) :
  (1 < length (stateStack t))%nat ->
  undo t scr
  = (true,
     with_stateStack (removelast (stateStack t)) t,
     with_objects
       (take (N.to_nat (objectsBefore (state t))) (objects scr)) scr).
Proof.
  intros Hlen. unfold undo.
  destruct (stateStack t) as [|? [|? ?]]; cbn in Hlen; try lia; reflexivity.
Qed.


(** *** Movements and filling *)







(** *** Stamps *)

Lemma erase_if_filter (p : SceneObject -> bool) (l : list SceneObject) :
  erase_if p l = List.filter (fun o => negb (p o)) l.
Proof.
  induction l as [|o l IH]; [done|].
  cbn [erase_if List.filter]. rewrite IH. by destruct (p o).
Qed.

(** C7.  For every k >= 0, [clearstamps(k)] removes from the scene log
    exactly the stamp records with an id below k: what remains is the
    log, in its order, of the records that are not stamps or have an
    id of at least k.  For every k < 0, and for the default argument,
    what remains is the log of the records that are not stamps. *)
Theorem clearstamps_removes_below (k : Z) (scr : TurtleScreen) :
  (0 <= k ->
     objects (clearstamps k scr)
     = List.filter (fun o => negb (stamp_flag o) || (k <=? stampid o))
                   (objects scr))
  /\ (k < 0 ->
        objects (clearstamps k scr)
        = List.filter (fun o => negb (stamp_flag o)) (objects scr))
  /\ objects (clearstamps_default scr)
     = List.filter (fun o => negb (stamp_flag o)) (objects scr).
Proof.
  unfold clearstamps_default, clearstamps. cbn [objects with_objects].
  rewrite !erase_if_filter. split_and!.
  - intros Hk. apply List.filter_ext. intros o.
    destruct (Z.ltb_spec k 0); [lia|].
    destruct (stamp_flag o); cbn; [|done].
    destruct (Z.ltb_spec (stampid o) k), (Z.leb_spec k (stampid o));
      try done; lia.
  - intros Hk. apply List.filter_ext. intros o.
    destruct (Z.ltb_spec k 0); [|lia].
    by destruct (stamp_flag o).
  - apply List.filter_ext. intros o. by destruct (stamp_flag o).
Qed.

(** *** Redraw *)

(** C2.  For every call of [redraw]: if [invalidate] is true or the
    scene log is shorter than [lastTotalObjects], the canvas is rebuilt
    from the whole scene log; otherwise the objects appended since
    [lastTotalObjects] are drawn on top of the existing canvas.  In
    both cases [lastTotalObjects] becomes the current length of the
    log, and the log itself is not changed. *)
Theorem redraw_full_or_incremental (invalidate : bool)
    (scr : TurtleScreen) :
  (invalidate = true
   \/ Z.of_nat (length (objects scr)) < lastTotalObjects scr ->
     canvas (redraw invalidate scr) = objects scr)
  /\ (invalidate = false
      /\ lastTotalObjects scr <= Z.of_nat (length (objects scr)) ->
        canvas (redraw invalidate scr)
        = canvas scr
          ++ drop (Z.to_nat (lastTotalObjects scr)) (objects scr))
  /\ lastTotalObjects (redraw invalidate scr)
     = Z.of_nat (length (objects scr))
  /\ objects (redraw invalidate scr) = objects scr.
Proof.
  unfold redraw. cbn [canvas lastTotalObjects objects]. split_and!.
  - intros [-> | Hshort]; [done|].
    destruct (Z.ltb_spec (Z.of_nat (length (objects scr)))
                         (lastTotalObjects scr)); [|lia].
    by rewrite orb_true_r.
  - intros [-> Hlong].
    destruct (Z.ltb_spec (Z.of_nat (length (objects scr)))
                         (lastTotalObjects scr)); [lia|].
    done.
  - done.
  - done.
Qed.

(** The incremental policy agrees with a full rebuild: when the canvas
    shows the first [lastTotalObjects] objects of the log, it shows the
    whole log after any redraw. *)
Lemma redraw_shows_scene (invalidate : bool) (scr : TurtleScreen) :
  0 <= lastTotalObjects scr ->
  canvas scr = take (Z.to_nat (lastTotalObjects scr)) (objects scr) ->
  canvas (redraw invalidate scr) = objects scr.
Proof.
  intros Hpos Hsync. unfold redraw. cbn [canvas].
  destruct (invalidate || _); [done|].
  rewrite Hsync. apply take_drop.
Qed.

(** *** Key bindings *)

Lemma bind_key_lookup (func : KeyFunc) (key : KeyboardKey)
    (m : gmap KeyboardKey (list KeyFunc)) :
  bind_key func key m !! key = Some (default [] (m !! key) ++ [func]).
Proof.
  unfold bind_key. destruct (m !! key) as [fs|] eqn:Hm.
  - rewrite lookup_insert_eq. by rewrite lookup_total_alt, Hm.
  - rewrite lookup_insert_eq.
    by rewrite lookup_total_alt, lookup_insert_eq.
Qed.

Lemma bind_key_lookup_ne (func : KeyFunc) (key key' : KeyboardKey)
    (m : gmap KeyboardKey (list KeyFunc)) :
  key <> key' -> bind_key func key m !! key' = m !! key'.
Proof.
  intros Hne. unfold bind_key. rewrite lookup_insert_ne by done.
  destruct (m !! key); [done|]. by rewrite lookup_insert_ne.
Qed.

(** The loop calls a front part of the list, in order; when it ends
    normally it has called the whole list. *)
Lemma call_each_prefix (fs : list KeyFunc) (w : World) :
  (exists later, fs = (call_each fs w).1 ++ later)
  /\ (forall w', (call_each fs w).2 = Returned w' -> (call_each fs w).1 = fs).
Proof.
  revert w. induction fs as [|func fs IH]; intros w.
  - split; [by exists []|done].
  - cbn [call_each]. destruct (func w) as [w1|w1].
    + destruct (IH w1) as [[later Hl] Hall].
      destruct (call_each fs w1) as [called o]. cbn [fst snd] in *.
      split.
      * exists later. by rewrite Hl at 1.
      * intros w' Ho. by rewrite (Hall w' Ho).
    + cbn [fst snd]. split; [by exists fs|done].
Qed.

(** When the loop ends in a failure, it has called the list up to and
    including the callback that failed, on the state that the earlier
    ones left, and none of the callbacks after it; the failure is the
    one of that callback. *)
Lemma call_each_failed (fs : list KeyFunc) (w w' : World) :
  (call_each fs w).2 = Failed w' ->
  exists earlier func later w0,
    fs = earlier ++ func :: later
    /\ (call_each fs w).1 = earlier ++ [func]
    /\ call_each earlier w = (earlier, Returned w0)
    /\ func w0 = Failed w'.
Proof.
  revert w. induction fs as [|func fs IH]; intros w; [done|].
  cbn [call_each]. destruct (func w) as [w1|w1] eqn:Hf.
  - specialize (IH w1).
    destruct (call_each fs w1) as [called o]. cbn [fst snd] in *.
    intros Ho. destruct (IH Ho) as (earlier & g & later & w0 & -> & -> & He & Hg).
    exists (func :: earlier), g, later, w0. split_and!; try done.
    cbn [call_each]. by rewrite Hf, He.
  - cbn [fst snd]. intros [= ->].
    exists [], func, fs, w. by split_and!.
Qed.

Lemma call_each_all_return (fs : list KeyFunc) (w : World) :
  Forall (fun func : KeyFunc => forall w0, exists w1, func w0 = Returned w1) fs ->
  (call_each fs w).1 = fs /\ exists w', (call_each fs w).2 = Returned w'.
Proof.
  intros Hfs. revert w. induction Hfs as [|func fs Hf _ IH]; intros w.
  - split; [done|by exists w].
  - cbn [call_each]. destruct (Hf w) as [w1 ->].
    destruct (IH w1) as [Hcalled [w' Ho]].
    destruct (call_each fs w1) as [called o]. cbn [fst snd] in *.
    split; [by rewrite Hcalled | by exists w'].
Qed.

(** C8, as amended.  [onkeypress] and [onkeyrelease] append to the
    list of their key in two independent registries.  For every key,
    [presskey] (and [releasekey], on the on-release registry) calls
    the callbacks bound to the key in registration order, each once,
    from the first one on: all of them when the call returns normally,
    which it does whenever no callback fails.  A callback that fails
    ends the loop: the callbacks up to and including it have been
    called, the ones registered after it are not called, and its
    failure is the outcome of the call.  When no callback is bound to
    the key, the call does nothing and returns normally. *)
Theorem presskey_calls_in_registration_order (key : KeyboardKey)
    (scr : TurtleScreen) (w : World) :
  (forall func,
      bound0 key (onkeypress func key scr) = bound0 key scr ++ [func]
      /\ bound1 key (onkeypress func key scr) = bound1 key scr
      /\ bound1 key (onkeyrelease func key scr) = bound1 key scr ++ [func]
      /\ bound0 key (onkeyrelease func key scr) = bound0 key scr)
  /\ (exists later, bound0 key scr = (presskey key scr w).1 ++ later)
  /\ (exists later, bound1 key scr = (releasekey key scr w).1 ++ later)
  /\ (forall w', (presskey key scr w).2 = Returned w' ->
                 (presskey key scr w).1 = bound0 key scr)
  /\ (forall w', (releasekey key scr w).2 = Returned w' ->
                 (releasekey key scr w).1 = bound1 key scr)
  /\ (Forall (fun func : KeyFunc => forall w0, exists w1, func w0 = Returned w1)
             (bound0 key scr) ->
      (presskey key scr w).1 = bound0 key scr
      /\ exists w', (presskey key scr w).2 = Returned w')
  /\ (Forall (fun func : KeyFunc => forall w0, exists w1, func w0 = Returned w1)
             (bound1 key scr) ->
      (releasekey key scr w).1 = bound1 key scr
      /\ exists w', (releasekey key scr w).2 = Returned w')
  /\ (forall w', (presskey key scr w).2 = Failed w' ->
        exists earlier func later w0,
          bound0 key scr = earlier ++ func :: later
          /\ (presskey key scr w).1 = earlier ++ [func]
          /\ call_each earlier w = (earlier, Returned w0)
          /\ func w0 = Failed w')
  /\ (forall w', (releasekey key scr w).2 = Failed w' ->
        exists earlier func later w0,
          bound1 key scr = earlier ++ func :: later
          /\ (releasekey key scr w).1 = earlier ++ [func]
          /\ call_each earlier w = (earlier, Returned w0)
          /\ func w0 = Failed w')
  /\ (keyBindings0 scr !! key = None -> presskey key scr w = ([], Returned w))
  /\ (keyBindings1 scr !! key = None -> releasekey key scr w = ([], Returned w)).
Proof.
  unfold bound0, bound1, presskey, releasekey, onkeypress, onkeyrelease.
  cbn [keyBindings0 keyBindings1 with_keyBindings].
  split_and!.
  - intros func. rewrite !bind_key_lookup. done.
  - destruct (keyBindings0 scr !! key) as [fs|]; cbn [default].
    + apply call_each_prefix.
    + by exists [].
  - destruct (keyBindings1 scr !! key) as [fs|]; cbn [default].
    + apply call_each_prefix.
    + by exists [].
  - destruct (keyBindings0 scr !! key) as [fs|]; cbn [default].
    + apply call_each_prefix.
    + done.
  - destruct (keyBindings1 scr !! key) as [fs|]; cbn [default].
    + apply call_each_prefix.
    + done.
  - destruct (keyBindings0 scr !! key) as [fs|]; cbn [default].
    + apply call_each_all_return.
    + intros _. split; [done|by exists w].
  - destruct (keyBindings1 scr !! key) as [fs|]; cbn [default].
    + apply call_each_all_return.
    + intros _. split; [done|by exists w].
  - destruct (keyBindings0 scr !! key) as [fs|]; cbn [default].
    + apply call_each_failed.
    + done.
  - destruct (keyBindings1 scr !! key) as [fs|]; cbn [default].
    + apply call_each_failed.
    + done.
  - by intros ->.
  - by intros ->.
Qed.

(** *** Clearing the screen *)

(** C9.  [clearscreen()] empties the scene log, clears all key, mouse
    and timer bindings and resets the background to the plain default,
    and it leaves the attached turtles as they are: every turtle
    attached before the call is attached after it, and no other is. *)
Theorem clearscreen_keeps_turtles (scr : TurtleScreen) :
  objects (clearscreen scr) = []
  /\ keyBindings0 (clearscreen scr) = ∅
  /\ keyBindings1 (clearscreen scr) = ∅
  /\ (forall button, mouseBindings (clearscreen scr) button = [])
  /\ timerBindings (clearscreen scr) = []
  /\ backgroundColor (clearscreen scr) = Color_white
  /\ backgroundImage (clearscreen scr) = Image_empty
  /\ turtles (clearscreen scr) = turtles scr
  /\ (forall turtle, In turtle (turtles scr) <->
                     In turtle (turtles (clearscreen scr))).
Proof. by split_and!. Qed.

(** *** Dots *)

(** C10.  For every colour c and size s, [dot(c, s)] is
    [circle(s/2, 4, c)], with the quotient of s by 2 truncated towards
    zero, on every turtle and screen; with the default size it is
    [circle(5, 4, c)]. *)
Theorem dot_is_four_step_circle
    (circle : Z -> Z -> Color -> Turtle -> TurtleScreen
              -> Turtle * TurtleScreen)
    (c : Color) (s : Z) (t : Turtle) (scr : TurtleScreen) :
  dot circle c s t scr = circle (s ÷ 2) 4 c t scr
  /\ dot_default circle c t scr = circle 5 4 c t scr.
Proof. split; reflexivity. Qed.

(* ------------------------------------------------------------------- *)
(** *** Further properties of the members with bodies in the header     *)
(* ------------------------------------------------------------------- *)

Lemma setundobuffer_stack (M : N) (t : Turtle) :
  stateStack (setundobuffer M t)
  = drop (length (stateStack t) - N.to_nat (N.max M 1)) (stateStack t).
Proof.
  unfold setundobuffer. cbn [stateStack]. rewrite pop_front_while_drop.
  destruct (N.ltb_spec M 1); do 2 f_equal; lia.
Qed.

Lemma setundobuffer_capacity (M : N) (t : Turtle) :
  undoStackSize (setundobuffer M t) = N.max M 1.
Proof.
  unfold setundobuffer. cbn [undoStackSize]. destruct (N.ltb_spec M 1); lia.
Qed.

(** Two calls of [setundobuffer] in a row leave the entries that the
    smaller of the two clamped sizes leaves, and the capacity of the
    second call: a larger size afterwards brings no discarded state
    back.  In particular the call is idempotent. *)
Theorem setundobuffer_composes (a b : N) (t : Turtle) :
  stateStack (setundobuffer a (setundobuffer b t))
  = stateStack (setundobuffer (N.min (N.max a 1) (N.max b 1)) t)
  /\ undoStackSize (setundobuffer a (setundobuffer b t)) = N.max a 1
  /\ setundobuffer a (setundobuffer a t) = setundobuffer a t.
Proof.
  assert (Hstack : forall x y,
    stateStack (setundobuffer x (setundobuffer y t))
    = stateStack (setundobuffer (N.min (N.max x 1) (N.max y 1)) t)).
  { intros x y. rewrite !setundobuffer_stack, drop_drop, length_drop.
    f_equal. lia. }
  split; [apply Hstack|]. split; [apply setundobuffer_capacity|].
  pose proof (Hstack a a) as Haa.
  replace (N.min (N.max a 1) (N.max a 1)) with (N.max a 1) in Haa by lia.
  rewrite (setundobuffer_stack (N.max a 1)) in Haa.
  replace (N.max (N.max a 1) 1) with (N.max a 1) in Haa by lia.
  rewrite <- setundobuffer_stack in Haa.
  pose proof (setundobuffer_capacity a (setundobuffer a t)) as Hc1.
  pose proof (setundobuffer_capacity a t) as Hc2.
  destruct (setundobuffer a (setundobuffer a t)) as [s1 i1 c1 f1] eqn:E1.
  destruct (setundobuffer a t) as [s2 i2 c2 f2] eqn:E2.
  cbn [stateStack undoStackSize] in *.
  assert (i1 = i2 /\ f1 = f2) as [-> ->].
  { unfold setundobuffer in E1. cbn [fillInsert fillAccum] in E1.
    by injection E1 as _ <- _ <-. }
  congruence.
Qed.

(** When the undo stack holds no more entries than the clamped size,
    [setundobuffer] leaves the stack as it is. *)
Theorem setundobuffer_keeps_fitting_stack (M : N) (t : Turtle) :
  (undobufferentries t <= N.max M 1)%N ->
  stateStack (setundobuffer M t) = stateStack t
  /\ undobufferentries (setundobuffer M t) = undobufferentries t.
Proof.
  unfold undobufferentries. intros Hfit.
  assert (Hs : stateStack (setundobuffer M t) = stateStack t).
  { rewrite setundobuffer_stack.
    replace (length (stateStack t) - N.to_nat (N.max M 1))%nat with 0%nat
      by lia.
    done. }
  by rewrite Hs.
Qed.

(** Whatever the size argument, [setundobuffer] never empties a stack
    that was not empty: at least one entry remains, and the entry at
    the back of the list is never the one discarded. *)
Theorem setundobuffer_keeps_back_entry (M : N) (t : Turtle) :
  stateStack t <> [] ->
  stateStack (setundobuffer M t) <> []
  /\ (1 <= undobufferentries (setundobuffer M t))%N
  /\ last (stateStack (setundobuffer M t)) = last (stateStack t).
Proof.
  intros Hne. destruct (stack_snoc _ Hne) as (older & p & Hst).
  assert (Hs : stateStack (setundobuffer M t)
               = drop (length (stateStack t) - N.to_nat (N.max M 1)) older
                 ++ [p]).
  { rewrite setundobuffer_stack, Hst. apply drop_app_le.
    rewrite length_app. cbn. lia. }
  split_and!.
  - rewrite Hs. by destruct (drop _ _).
  - unfold undobufferentries. rewrite Hs, length_app. cbn. lia.
  - by rewrite Hs, Hst, !last_snoc.
Qed.

(** The hand-written copy constructor of [PenState] copies every
    member: no member of the copy keeps its default value. *)
Theorem PenState_copy_is_exact (p : PenState) : PenState_copy p = p.
Proof. by destruct p. Qed.

(** The radius of a dot is its size halved towards zero: a size of
    [2 * r + 1] gives the same circle as a size of [2 * r] for
    [r >= 0], a negated size gives the negated radius, and the sizes
    -1, 0 and 1 all give the radius 0. *)
Theorem dot_radius_rounds_towards_zero
    (circle : Z -> Z -> Color -> Turtle -> TurtleScreen
              -> Turtle * TurtleScreen)
    (c : Color) (r : Z) (t : Turtle) (scr : TurtleScreen) :
  (0 <= r ->
     dot circle c (2 * r + 1) t scr = circle r 4 c t scr
     /\ dot circle c (2 * r) t scr = circle r 4 c t scr)
  /\ dot circle c (- r) t scr = circle (- (r ÷ 2)) 4 c t scr
  /\ dot circle c (-1) t scr = circle 0 4 c t scr
  /\ dot circle c 0 t scr = circle 0 4 c t scr
  /\ dot circle c 1 t scr = circle 0 4 c t scr.
Proof.
  unfold dot. split_and!; try reflexivity.
  - intros Hr.
    assert (H1 : (2 * r + 1) ÷ 2 = r).
    { rewrite Z.quot_div_nonneg by lia.
      symmetry. apply (Z.div_unique (2 * r + 1) 2 r 1); lia. }
    assert (H2 : (2 * r) ÷ 2 = r).
    { rewrite Z.quot_div_nonneg by lia.
      symmetry. apply (Z.div_unique (2 * r) 2 r 0); lia. }
    by rewrite H1, H2.
  - by rewrite Z.quot_opp_l by lia.
Qed.

(** The dispatch loop over a list in two parts: the second part runs on
    the state that the first part leaves, and not at all when the first
    part fails. *)
Lemma call_each_app (fs gs : list KeyFunc) (w : World) :
  call_each (fs ++ gs) w
  = match call_each fs w with
    | (called, Returned w') =>
        let '(called', o) := call_each gs w' in (called ++ called', o)
    | (called, Failed w') => (called, Failed w')
    end.
Proof.
  revert w. induction fs as [|func fs IH]; intros w.
  - cbn. by destruct (call_each gs w).
  - cbn [app call_each]. destruct (func w) as [w1|w1]; [|done].
    rewrite IH. destruct (call_each fs w1) as [called [w2|w2]]; [|done].
    by destruct (call_each gs w2).
Qed.

Lemma call_each_snoc (fs : list KeyFunc) (func : KeyFunc) (w : World) :
  call_each (fs ++ [func]) w
  = match call_each fs w with
    | (called, Returned w') => (called ++ [func], func w')
    | (called, Failed w') => (called, Failed w')
    end.
Proof.
  rewrite call_each_app. destruct (call_each fs w) as [called [w'|w']]; [|done].
  cbn. by destruct (func w').
Qed.

Lemma presskey_bound0 (key : KeyboardKey) (scr : TurtleScreen) (w : World) :
  presskey key scr w = call_each (bound0 key scr) w.
Proof. unfold presskey, bound0. by destruct (keyBindings0 scr !! key). Qed.

Lemma releasekey_bound1 (key : KeyboardKey) (scr : TurtleScreen) (w : World) :
  releasekey key scr w = call_each (bound1 key scr) w.
Proof. unfold releasekey, bound1. by destruct (keyBindings1 scr !! key). Qed.

Lemma bound0_onkeypress (func : KeyFunc) (key : KeyboardKey)
    (scr : TurtleScreen) :
  bound0 key (onkeypress func key scr) = bound0 key scr ++ [func].
Proof.
  unfold bound0, onkeypress. cbn [keyBindings0 with_keyBindings].
  by rewrite bind_key_lookup.
Qed.

Lemma bound1_onkeyrelease (func : KeyFunc) (key : KeyboardKey)
    (scr : TurtleScreen) :
  bound1 key (onkeyrelease func key scr) = bound1 key scr ++ [func].
Proof.
  unfold bound1, onkeyrelease. cbn [keyBindings1 with_keyBindings].
  by rewrite bind_key_lookup.
Qed.

(** Registering a callback for one key changes what no other key
    does, and changes nothing in the other registry or for the mouse:
    [onkeypress] leaves [presskey] of every other key, [releasekey] of
    every key and [click] as they were, and likewise [onkeyrelease]. *)
Theorem key_registration_is_isolated (func : KeyFunc)
    (key key' : KeyboardKey) (scr : TurtleScreen) (w : World) :
  (key <> key' ->
     presskey key' (onkeypress func key scr) w = presskey key' scr w
     /\ releasekey key' (onkeyrelease func key scr) w
        = releasekey key' scr w)
  /\ releasekey key' (onkeypress func key scr) w = releasekey key' scr w
  /\ presskey key' (onkeyrelease func key scr) w = presskey key' scr w
  /\ (forall x y button,
        click x y button (onkeypress func key scr) w
        = click x y button scr w
        /\ click x y button (onkeyrelease func key scr) w
           = click x y button scr w).
Proof.
  split_and!; try done.
  intros Hne. unfold presskey, releasekey, onkeypress, onkeyrelease.
  cbn [keyBindings0 keyBindings1 with_keyBindings].
  by rewrite !bind_key_lookup_ne.
Qed.

(** A newly registered callback runs last: after [onkeypress(func, key)],
    [presskey(key)] calls what it called before and then [func], on the
    state that the earlier callbacks left; when an earlier callback
    fails, [func] is not reached.  The same holds for [onkeyrelease] and
    [releasekey]. *)
Theorem new_key_callback_runs_last (func : KeyFunc) (key : KeyboardKey)
    (scr : TurtleScreen) (w : World) :
  presskey key (onkeypress func key scr) w
  = match presskey key scr w with
    | (called, Returned w') => (called ++ [func], func w')
    | (called, Failed w') => (called, Failed w')
    end
  /\ releasekey key (onkeyrelease func key scr) w
     = match releasekey key scr w with
       | (called, Returned w') => (called ++ [func], func w')
       | (called, Failed w') => (called, Failed w')
       end.
Proof.
  split.
  - rewrite !presskey_bound0, bound0_onkeypress. apply call_each_snoc.
  - rewrite !releasekey_bound1, bound1_onkeyrelease. apply call_each_snoc.
Qed.

Lemma bound0_onkeypress_all (fs : list KeyFunc) (key : KeyboardKey)
    (scr : TurtleScreen) :
  bound0 key (onkeypress_all fs key scr) = bound0 key scr ++ fs.
Proof.
  revert scr. induction fs as [|func fs IH]; intros scr.
  - cbn. by rewrite app_nil_r.
  - unfold onkeypress_all in *. cbn [fold_left].
    rewrite IH, bound0_onkeypress, <- app_assoc. done.
Qed.

Lemma call_each_returning (gs : list (World -> World)) (w : World) :
  call_each (List.map (fun g w0 => Returned (g w0)) gs) w
  = (List.map (fun g w0 => Returned (g w0)) gs,
     Returned (fold_left (fun w0 g => g w0) gs w)).
Proof.
  revert w. induction gs as [|g gs IH]; intros w; [done|].
  cbn [List.map call_each fold_left]. by rewrite IH.
Qed.

(** Callbacks that return compose in registration order: on a key
    without callbacks, after registering one callback per function of
    a list, [presskey] calls exactly these callbacks, in list order,
    and leaves the state that applying the functions one after the
    other gives. *)
Theorem presskey_composes_callbacks (gs : list (World -> World))
    (key : KeyboardKey) (scr : TurtleScreen) (w : World) :
  keyBindings0 scr !! key = None ->
  presskey key
    (onkeypress_all (List.map (fun g w0 => Returned (g w0)) gs) key scr) w
  = (List.map (fun g w0 => Returned (g w0)) gs,
     Returned (fold_left (fun w0 g => g w0) gs w)).
Proof.
  intros Hnone. rewrite presskey_bound0, bound0_onkeypress_all.
  unfold bound0 at 1. rewrite Hnone. cbn [default app].
  apply call_each_returning.
Qed.

Lemma MouseButton_eqb_eq (a b : MouseButton) :
  MouseButton_eqb a b = true <-> a = b.
Proof. destruct a, b; cbn; split; congruence. Qed.

(** Mouse callbacks are kept per button, in registration order: after
    [onclick(func, button)], [click(x, y, button)] calls what it called
    before and then [func(x, y)], unless an earlier callback fails; a
    click of another button and the key callbacks are not affected; and
    on a fresh screen a click calls nothing and returns. *)
Theorem new_click_callback_runs_last (func : MouseFunc)
    (button button' : MouseButton) (x y : Z) (scr : TurtleScreen)
    (w : World) :
  click x y button (onclick func button scr) w
  = match click x y button scr w with
    | (called, Returned w') => (called ++ [func x y], func x y w')
    | (called, Failed w') => (called, Failed w')
    end
  /\ (button' <> button ->
      click x y button' (onclick func button scr) w
      = click x y button' scr w)
  /\ (forall key,
        presskey key (onclick func button scr) w = presskey key scr w
        /\ releasekey key (onclick func button scr) w
           = releasekey key scr w)
  /\ click x y button TurtleScreen_default w = ([], Returned w).
Proof.
  split_and!; try done.
  - unfold click, onclick. cbn [mouseBindings].
    rewrite (proj2 (MouseButton_eqb_eq button button) eq_refl).
    rewrite List.map_app. apply call_each_snoc.
  - intros Hne. unfold click, onclick. cbn [mouseBindings].
    destruct (MouseButton_eqb button' button) eqn:E; [|done].
    by apply MouseButton_eqb_eq in E.
Qed.

(** *** Attribute setters and getters *)

Lemma assign_state (f : PenState -> PenState) (t : Turtle)
    (scr : TurtleScreen) :
  well_formed t ->
  state (modify_state f (pushState t scr))
  = f (set_objectsBefore (N.of_nat (length (objects scr))) (state t)).
Proof.
  intros Hwf. rewrite modify_state_state by (by apply pushState_well_formed).
  by rewrite pushState_state.
Qed.

(** On a turtle with a non-empty undo stack and a capacity of at least
    1, every attribute getter returns what the matching setter has just
    set, and [degrees()] and [radians()] set the angle mode they name. *)
Theorem attribute_set_then_get (t : Turtle) (scr : TurtleScreen)
    (c : Color) (pixels : Z) (val : float) :
  well_formed t ->
  fillcolor_get (fillcolor c t scr) = c
  /\ pencolor_get (pencolor c t scr) = c
  /\ width_get (width pixels t scr) = pixels
  /\ speed_get (speed val t scr) = val
  /\ angleMode (state (degrees t scr)) = false
  /\ angleMode (state (radians t scr)) = true.
Proof.
  intros Hwf.
  unfold fillcolor_get, pencolor_get, width_get, speed_get,
    fillcolor, pencolor, width, speed, degrees, radians.
  rewrite !assign_state by done. by split_and!.
Qed.

(** On such a turtle a setter changes its own attribute only: each of
    [fillcolor], [pencolor], [width] and [speed] leaves what the three
    other getters return, the transform, the stamp counter, the pen-down
    flag and the filling flag as they were. *)
Theorem attribute_setters_change_one_attribute (t : Turtle)
    (scr : TurtleScreen) (c : Color) (pixels : Z) (val : float) :
  well_formed t ->
  Forall (fun t' =>
            transform (state t') = transform (state t)
            /\ curStamp (state t') = curStamp (state t)
            /\ tracing (state t') = tracing (state t)
            /\ filling (state t') = filling (state t))
         [fillcolor c t scr; pencolor c t scr; width pixels t scr;
          speed val t scr]
  /\ Forall (fun t' => fillcolor_get t' = fillcolor_get t)
            [pencolor c t scr; width pixels t scr; speed val t scr]
  /\ Forall (fun t' => pencolor_get t' = pencolor_get t)
            [fillcolor c t scr; width pixels t scr; speed val t scr]
  /\ Forall (fun t' => width_get t' = width_get t)
            [fillcolor c t scr; pencolor c t scr; speed val t scr]
  /\ Forall (fun t' => speed_get t' = speed_get t)
            [fillcolor c t scr; pencolor c t scr; width pixels t scr].
Proof.
  intros Hwf.
  unfold fillcolor_get, pencolor_get, width_get, speed_get,
    fillcolor, pencolor, width, speed.
  split_and!; repeat constructor; by rewrite assign_state by done.
Qed.

(** *** The undo stack stays within its capacity *)

Lemma update_back_length (f : PenState -> PenState) (l : list PenState) :
  length (update_back f l) = length l.
Proof.
  induction l as [|p l IH]; [done|].
  cbn [update_back]. destruct l; [done|]. cbn [length] in *. by rewrite IH.
Qed.

Lemma modify_state_within (f : PenState -> PenState) (t : Turtle) :
  within_capacity t -> within_capacity (modify_state f t).
Proof.
  intros [Hwf Hcap]. split; [by apply modify_state_well_formed|].
  unfold undobufferentries, modify_state in *.
  cbn [stateStack undoStackSize with_stateStack].
  by rewrite update_back_length.
Qed.

Lemma with_fill_within pos acc (t : Turtle) :
  within_capacity t -> within_capacity (with_fill pos acc t).
Proof. done. Qed.

Lemma pushState_within (t : Turtle) (scr : TurtleScreen) :
  well_formed t -> within_capacity (pushState t scr).
Proof.
  intros Hwf. split; [by apply pushState_well_formed|].
  unfold undobufferentries, pushState.
  cbn [stateStack undoStackSize with_stateStack].
  rewrite pop_front_while_length. lia.
Qed.

Lemma setundobuffer_within (size : N) (t : Turtle) :
  stateStack t <> [] -> within_capacity (setundobuffer size t).
Proof.
  intros Hne. split; [split|].
  - rewrite setundobuffer_stack.
    destruct (stack_snoc _ Hne) as (older & p & ->).
    rewrite drop_app_le by (rewrite length_app; cbn; lia).
    by destruct (drop _ _).
  - rewrite setundobuffer_capacity. lia.
  - unfold undobufferentries.
    rewrite setundobuffer_stack, setundobuffer_capacity, length_drop. lia.
Qed.

Lemma undo_within (t : Turtle) (scr : TurtleScreen) :
  within_capacity t ->
  within_capacity (undo t scr).1.2
  /\ undoStackSize (undo t scr).1.2 = undoStackSize t.
Proof.
  intros Hw. pose proof Hw as [[Hne Hcap] Hlen]. unfold undo.
  destruct (stateStack t) as [|p [|q l]] eqn:Hst; [done|done|].
  cbn [fst snd]. split; [|done].
  unfold within_capacity, well_formed, undobufferentries in *.
  cbn [stateStack undoStackSize with_stateStack].
  rewrite Hst in Hlen.
  assert (Hrl : length (removelast (p :: q :: l)) = S (length l)).
  { destruct (stack_snoc (p :: q :: l)) as (older & z & Hz); [done|].
    rewrite Hz, removelast_last.
    apply (f_equal length) in Hz. rewrite length_app in Hz.
    cbn [length] in Hz. lia. }
  split_and!; [ | done | rewrite Hrl; cbn [length] in Hlen; lia].
  intros Hnil. rewrite Hnil in Hrl. done.
Qed.

(** One call keeps the stack within its capacity, and only
    [setundobuffer] changes the capacity. *)
Lemma exec_within (c : Command) (t : Turtle) (scr : TurtleScreen) :
  within_capacity t ->
  within_capacity (exec c t scr).1.2
  /\ (is_setundobuffer c = false ->
      undoStackSize (exec c t scr).1.2 = undoStackSize t).
Proof.
  intros Hw. pose proof Hw as [Hwf _].
  pose proof (pushState_within t scr Hwf) as Hp.
  destruct c; cbn [exec is_setundobuffer];
    try (split; [by apply modify_state_within | done]).
  - unfold move, travelTo.
    destruct (filling (state (pushState t scr))); cbn [fst snd];
      (split; [by apply modify_state_within | done]).
  - unfold fill.
    destruct (filling (state t) && negb val); [|destruct val];
      cbn [fst snd]; (split; [by apply modify_state_within | done]).
  - unfold write. cbn [fst snd]. done.
  - done.
  - done.
  - cbn [fst snd]. split; [|done]. apply setundobuffer_within, Hwf.
  - pose proof (undo_within t scr Hw) as [Hu Hc].
    destruct (undo t scr) as [[r t'] scr']. cbn [fst snd] in *. done.
Qed.

Lemma run_within (cs : list Command) (t : Turtle) (scr : TurtleScreen) :
  within_capacity t ->
  within_capacity (run cs t scr).1.2
  /\ (forallb (fun c => negb (is_setundobuffer c)) cs = true ->
      undoStackSize (run cs t scr).1.2 = undoStackSize t).
Proof.
  revert t scr. induction cs as [|c cs IH]; intros t scr Hw; [done|].
  cbn [run forallb].
  destruct (exec_within c t scr Hw) as [Hw1 Hc1].
  destruct (exec c t scr) as [[r t1] scr1]. cbn [fst snd] in *.
  destruct (IH t1 scr1 Hw1) as [Hw2 Hc2].
  destruct (run cs t1 scr1) as [[ids t2] scr2]. cbn [fst snd] in *.
  split; [done|]. intros [Hc Hcs]%andb_prop.
  apply negb_true_iff in Hc. rewrite Hc2, Hc1 by done. done.
Qed.

(** Across every sequence of calls, [undo()] and [setundobuffer]
    included, the undo stack of a turtle holds at least one entry and
    at most as many as its capacity, and the capacity is at least 1:
    from any turtle of which this holds, and so from a fresh one. *)
Theorem undo_stack_stays_within_capacity (cs : list Command) (t : Turtle)
    (scr : TurtleScreen) :
  (within_capacity t ->
     (1 <= undobufferentries (run cs t scr).1.2)%N
     /\ (undobufferentries (run cs t scr).1.2
         <= undoStackSize (run cs t scr).1.2)%N)
  /\ (1 <= undobufferentries (run cs Turtle_default scr).1.2)%N
  /\ (undobufferentries (run cs Turtle_default scr).1.2
      <= undoStackSize (run cs Turtle_default scr).1.2)%N.
Proof.
  assert (Hgen : forall t0, within_capacity t0 ->
     (1 <= undobufferentries (run cs t0 scr).1.2)%N
     /\ (undobufferentries (run cs t0 scr).1.2
         <= undoStackSize (run cs t0 scr).1.2)%N).
  { intros t0 Hw. destruct (run_within cs t0 scr Hw) as [[[Hne _] Hlen] _].
    split; [|done]. unfold undobufferentries.
    destruct (stateStack _); [done|]. cbn [length]. lia. }
  split; [apply Hgen|]. apply Hgen.
  split; [apply Turtle_default_well_formed|]. by vm_compute.
Qed.

(** A buffer size of 0 or 1 disables undo: after [setundobuffer] with
    such a size, whatever calls other than [setundobuffer] follow, the
    stack holds one entry and [undo()] changes neither the turtle nor
    the scene. *)
Theorem undo_disabled_by_buffer_of_one (cs : list Command) (size : N)
    (t : Turtle) (scr : TurtleScreen) :
  stateStack t <> [] -> (size <= 1)%N ->
  forallb (fun c => negb (is_setundobuffer c)) cs = true ->
  undobufferentries (run cs (setundobuffer size t) scr).1.2 = 1%N
  /\ undo (run cs (setundobuffer size t) scr).1.2
          (run cs (setundobuffer size t) scr).2
     = (false,
        (run cs (setundobuffer size t) scr).1.2,
        (run cs (setundobuffer size t) scr).2).
Proof.
  intros Hne Hsize Hcs.
  pose proof (setundobuffer_within size t Hne) as Hw.
  destruct (run_within cs (setundobuffer size t) scr Hw)
    as [[[Hne' _] Hlen] Hcap].
  specialize (Hcap Hcs). rewrite setundobuffer_capacity in Hcap.
  rewrite Hcap in Hlen.
  destruct (run cs (setundobuffer size t) scr) as [[ids t'] scr'].
  cbn [fst snd] in *. unfold undobufferentries, undo in *.
  destruct (stateStack t') as [|p [|q l]]; [done| |cbn [length] in Hlen; lia].
  done.
Qed.

(** [undo()] takes back an attribute change: on a turtle with a
    non-empty undo stack and a capacity of at least 2, after any of
    [fillcolor], [pencolor], [width], [speed], [degrees] and [radians],
    [undo()] succeeds, the pen state is the one from before the call,
    and the scene log is unchanged. *)
Theorem undo_reverts_attribute_change (t : Turtle) (scr : TurtleScreen)
    (c : Color) (pixels : Z) (val : float) :
  well_formed t -> (2 <= undoStackSize t)%N ->
  Forall (fun t1 =>
            (undo t1 scr).1.1 = true
            /\ state (undo t1 scr).1.2 = state t
            /\ objects (undo t1 scr).2 = objects scr)
         [fillcolor c t scr; pencolor c t scr; width pixels t scr;
          speed val t scr; degrees t scr; radians t scr].
Proof.
  intros Hwf Hcap.
  assert (Hgen : forall f : PenState -> PenState,
    (forall p, objectsBefore (f p) = objectsBefore p) ->
    (undo (modify_state f (pushState t scr)) scr).1.1 = true
    /\ state (undo (modify_state f (pushState t scr)) scr).1.2 = state t
    /\ objects (undo (modify_state f (pushState t scr)) scr).2
       = objects scr).
  { intros f Hf.
    pose proof (assign_state f t scr Hwf) as Hst1.
    pose proof (pushState_stack t scr Hwf) as Hpush.
    destruct Hwf as [Hne _].
    destruct (stack_snoc _ Hne) as (older & p & Hst).
    set (k := (S (length (stateStack t)) - N.to_nat (undoStackSize t))%nat)
      in Hpush.
    assert (Hdrop : drop k (stateStack t) = drop k older ++ [p]).
    { rewrite Hst. apply drop_app_le. subst k. rewrite Hst, length_app.
      cbn. lia. }
    assert (Hstack : stateStack (modify_state f (pushState t scr))
                     = (drop k older ++ [p])
                       ++ [f (set_objectsBefore
                                (N.of_nat (length (objects scr)))
                                (state t))]).
    { unfold modify_state. cbn [stateStack with_stateStack].
      by rewrite Hpush, update_back_snoc, Hdrop. }
    rewrite undo_pops by (rewrite Hstack, !length_app; cbn; lia).
    cbn [fst snd]. split; [done|]. split.
    - unfold state at 1. cbn [stateStack with_stateStack].
      rewrite Hstack, removelast_last, List.last_last.
      symmetry. by eapply state_snoc.
    - cbn [objects with_objects]. rewrite Hst1, Hf.
      cbn [set_objectsBefore objectsBefore]. rewrite Nat2N.id.
      by apply take_ge. }
  unfold fillcolor, pencolor, width, speed, degrees, radians.
  repeat constructor; by apply Hgen.
Qed.

Lemma assign_entries (f : PenState -> PenState) (t : Turtle)
    (scr : TurtleScreen) :
  undobufferentries (modify_state f (pushState t scr))
  = N.min (undobufferentries t + 1) (undoStackSize t).
Proof.
  unfold undobufferentries, modify_state, pushState.
  cbn [stateStack with_stateStack].
  rewrite update_back_length, pop_front_while_length, length_app.
  cbn [length]. lia.
Qed.

(** Every call of an attribute setter adds one entry to the undo stack
    until the capacity is reached, where the number of entries stays:
    after a sequence of such calls on a turtle whose stack is within
    its capacity, the stack holds the earlier entries plus one per
    call, capped at the capacity.  The calls leave the scene log and
    the capacity as they were, and return no stamp id. *)
Theorem attribute_setters_fill_undo_stack (cs : list Command) (t : Turtle)
    (scr : TurtleScreen) :
  within_capacity t ->
  forallb is_attribute_setter cs = true ->
  undobufferentries (run cs t scr).1.2
  = N.min (undobufferentries t + N.of_nat (length cs)) (undoStackSize t)
  /\ undoStackSize (run cs t scr).1.2 = undoStackSize t
  /\ (run cs t scr).2 = scr
  /\ (run cs t scr).1.1 = [].
Proof.
  revert t. induction cs as [|c cs IH]; intros t Hw Hcs.
  - cbn. destruct Hw as [_ Hlen]. split_and!; try done. lia.
  - cbn [forallb] in Hcs. apply andb_prop in Hcs as [Hc Hcs].
    destruct (exec_within c t scr Hw) as [Hw1 _].
    assert (Hstep : exists f,
      exec c t scr = (None, modify_state f (pushState t scr), scr)).
    { destruct c; try discriminate Hc; cbn [exec]; eauto. }
    destruct Hstep as [f Hstep]. cbn [run]. rewrite Hstep in *.
    cbn [fst snd] in Hw1.
    destruct (IH _ Hw1 Hcs) as (Hn & Hcap & Hscr & Hids).
    destruct (run cs (modify_state f (pushState t scr)) scr)
      as [[ids t2] scr2].
    cbn [fst snd] in *. split_and!; try done.
    rewrite Hn, assign_entries. cbn [length].
    change (undoStackSize (modify_state f (pushState t scr)))
      with (undoStackSize t).
    lia.
Qed.

(** *** The animation duration *)

Lemma positive_speed_is_not_at_most_zero (s : spec_float) :
  SFltb (Binary32.of_int 0) s = true -> SFleb s (Binary32.of_int 0) = false.
Proof. destruct s as [ | [|] | | [|] m e]; cbn; congruence. Qed.

(** The duration at a given speed, by evaluation of the binary32
    operations; the range check of the conversion to [long] is left to
    [Hlong]. *)
Ltac evaluate_duration Hlong :=
  unfold getAnimMS;
  repeat match goal with
  | |- context [SFleb ?a ?b] =>
      let r := eval vm_compute in (SFleb a b) in
      change (SFleb a b) with r; cbv iota
  end;
  repeat match goal with
  | |- context [Binary32.mul ?a ?b] =>
      let r := eval vm_compute in (Binary32.mul a b) in
      change (Binary32.mul a b) with r
  end;
  unfold Binary32.to_long;
  repeat match goal with
  | |- context [Z.shiftr ?a ?b] =>
      let r := eval vm_compute in (Z.shiftr a b) in
      change (Z.shiftr a b) with r
  end;
  cbv iota beta zeta;
  rewrite ?Hlong by lia; reflexivity.

Lemma long_holds_duration (bits v : Z) :
  32 <= bits -> 0 <= v <= 300 ->
  ((- 2 ^ (bits - 1) <=? v) && (v <? 2 ^ (bits - 1))) = true.
Proof.
  intros Hbits Hv.
  assert (Hpow : 2 ^ 31 <= 2 ^ (bits - 1)) by (apply Z.pow_le_mono_r; lia).
  apply andb_true_intro. split; [apply Z.leb_le | apply Z.ltb_lt]; lia.
Qed.

(** C5.  For every binary32 move speed s and every width of [long],
    the animation duration is 0 when [s <= 0], and when [s > 0] it is
    [(11 - s)/10 * 300] as [getAnimMS] computes it: on [float], each
    operation rounded, and the result converted to [long].  For the
    whole speeds 1 to 10 of the documented range the rounding loses
    nothing and the duration is [(11 - s) * 30] milliseconds; for the
    speeds of [TurtleSpeed] (0, 10, 6, 3, 1) it is 0, 30, 150, 240 and
    300 milliseconds. *)
Theorem getAnimMS_duration (bits : Z) (s : spec_float) :
  (SFleb s (Binary32.of_int 0) = true -> getAnimMS bits s = Some 0)
  /\ (SFltb (Binary32.of_int 0) s = true ->
      getAnimMS bits s
      = Binary32.to_long bits
          (Binary32.mul
             (Binary32.div (Binary32.sub (Binary32.of_int 11) s)
                           (Binary32.of_int 10))
             (Binary32.of_int 300)))
  /\ (forall n : Z,
        32 <= bits -> 1 <= n <= 10 ->
        getAnimMS bits (Binary32.of_int n) = Some ((11 - n) * 30))
  /\ (32 <= bits ->
      List.map (fun speed => getAnimMS bits
                               (Binary32.of_int (TurtleSpeed_value speed)))
               [TS_FASTEST; TS_FAST; TS_NORMAL; TS_SLOW; TS_SLOWEST]
      = [Some 0; Some 30; Some 150; Some 240; Some 300]).
Proof.
  split_and!.
  - intros Hle. unfold getAnimMS. by rewrite Hle.
  - intros Hgt. unfold getAnimMS.
    by rewrite positive_speed_is_not_at_most_zero.
  - intros n Hbits Hn.
    pose proof (long_holds_duration bits) as Hlong.
    assert (Hcases : n = 1 \/ n = 2 \/ n = 3 \/ n = 4 \/ n = 5 \/ n = 6
                     \/ n = 7 \/ n = 8 \/ n = 9 \/ n = 10) by lia.
    destruct Hcases as [->|[->|[->|[->|[->|[->|[->|[->|[->| ->]]]]]]]]];
      evaluate_duration Hlong.
  - intros Hbits.
    pose proof (long_holds_duration bits) as Hlong.
    cbn [List.map TurtleSpeed_value]. evaluate_duration Hlong.
Qed.

End Properties.

(* ===================================================================== *)
(** ** Worked instances                                                  *)
(* ===================================================================== *)

#[local] Existing Instance plain.

(** C4 on the turtle after two movements, whose three entries differ,
    with the size argument 2: the two entries at the back remain. *)
Lemma setundobuffer_keeps_most_recent_witness :
  (stateStack plain_drawn.1
   = take 1 (stateStack plain_drawn.1) ++ drop 1 (stateStack plain_drawn.1)
   /\ (length (drop 1 (stateStack plain_drawn.1)) <= N.to_nat (N.max 2 1))%nat)
  /\ (exists discarded kept,
        take 1 (stateStack plain_drawn.1) = discarded ++ kept
        /\ stateStack (setundobuffer 2 plain_drawn.1)
           = kept ++ drop 1 (stateStack plain_drawn.1))
  /\ List.map transform (stateStack plain_drawn.1)
     = [(0, 0); (10, 0); (5, 5)]
  /\ List.map transform (stateStack (setundobuffer 2 plain_drawn.1))
     = [(10, 0); (5, 5)].
Proof.
  assert (Hsplit : stateStack plain_drawn.1
                   = take 1 (stateStack plain_drawn.1)
                     ++ drop 1 (stateStack plain_drawn.1))
    by reflexivity.
  assert (Hlen : (length (drop 1 (stateStack plain_drawn.1))
                  <= N.to_nat (N.max 2 1))%nat)
    by (vm_compute; lia).
  split; [split; [exact Hsplit | exact Hlen]|].
  split; [|split; reflexivity].
  exact (proj2 (proj2 (proj2 (proj2 (proj2
           (@setundobuffer_keeps_most_recent plain 2 plain_drawn.1)))))
           _ _ Hsplit Hlen).
Defined.




(** C7 on the screen with the stamps 0, 1 and 2 and one trace line. *)
Lemma clearstamps_removes_below_witness :
  (0 <= 2
   /\ objects (clearstamps 2 plain_stamped.2)
      = List.filter (fun o => negb (stamp_flag o) || (2 <=? stampid o))
                    (objects plain_stamped.2)
   /\ map stampid (objects (clearstamps 2 plain_stamped.2)) = [-1; 2])
  /\ (-1 < 0
      /\ objects (clearstamps (-1) plain_stamped.2)
         = List.filter (fun o => negb (stamp_flag o))
                       (objects plain_stamped.2)).
Proof.
  split.
  - split; [lia|]. split.
    + apply (proj1 (@clearstamps_removes_below plain 2 plain_stamped.2)). lia.
    + vm_compute. reflexivity.
  - split; [lia|].
    apply (proj1 (proj2 (@clearstamps_removes_below plain (-1)
                           plain_stamped.2))). lia.
Defined.

(** C2 on the screen after two movements: a first, incremental redraw, a
    redraw with [invalidate], and a redraw after the log has shrunk. *)
Lemma redraw_full_or_incremental_witness :
  ((false = false
    /\ lastTotalObjects plain_drawn.2
       <= Z.of_nat (length (objects plain_drawn.2)))
   /\ canvas (redraw false plain_drawn.2)
      = canvas plain_drawn.2
        ++ drop (Z.to_nat (lastTotalObjects plain_drawn.2))
                (objects plain_drawn.2))
  /\ (true = true /\ canvas (redraw true plain_drawn.2) = objects plain_drawn.2)
  /\ (Z.of_nat (length (objects (with_objects [] (redraw false plain_drawn.2))))
      < lastTotalObjects (with_objects [] (redraw false plain_drawn.2))
      /\ canvas (redraw false (with_objects [] (redraw false plain_drawn.2)))
         = []).
Proof.
  split; [|split].
  - assert (Hinc : false = false
                   /\ lastTotalObjects plain_drawn.2
                      <= Z.of_nat (length (objects plain_drawn.2)))
      by (split; [reflexivity | vm_compute; discriminate]).
    split; [exact Hinc|].
    exact (proj1 (proj2 (@redraw_full_or_incremental plain false
                           plain_drawn.2)) Hinc).
  - split; [reflexivity|].
    exact (proj1 (@redraw_full_or_incremental plain true plain_drawn.2)
             (or_introl eq_refl)).
  - assert (Hshort :
      Z.of_nat (length (objects (with_objects [] (redraw false plain_drawn.2))))
      < lastTotalObjects (with_objects [] (redraw false plain_drawn.2)))
      by (vm_compute; reflexivity).
    split; [exact Hshort|].
    exact (proj1 (@redraw_full_or_incremental plain false
                    (with_objects [] (redraw false plain_drawn.2)))
             (or_intror Hshort)).
Defined.

(** C8, as amended, on a screen with two returning callbacks on key 3,
    on a key without callbacks, and on the screen whose first callback
    on key 3 fails. *)
Lemma presskey_calls_in_registration_order_witness :
  ((presskey 3 plain_bound []).2 = Returned [1; 2]
   /\ (presskey 3 plain_bound []).1 = bound0 3 plain_bound)
  /\ (Forall (fun func : @KeyFunc plain =>
                forall w0, exists w1, func w0 = Returned w1)
             (bound0 3 plain_bound)
      /\ (presskey 3 plain_bound []).1 = bound0 3 plain_bound)
  /\ (keyBindings0 plain_bound !! 4 = None
      /\ presskey 4 plain_bound [] = ([], Returned []))
  /\ (keyBindings1 plain_bound !! 3 = None
      /\ releasekey 3 plain_bound [] = ([], Returned []))
  /\ ((presskey 3 plain_bound_failing []).2 = Failed [1]
      /\ exists earlier func later w0,
           bound0 3 plain_bound_failing = earlier ++ func :: later
           /\ (presskey 3 plain_bound_failing []).1 = earlier ++ [func]
           /\ call_each earlier [] = (earlier, Returned w0)
           /\ func w0 = Failed [1]).
Proof.
  pose proof (@presskey_calls_in_registration_order plain 3 plain_bound [])
    as (_ & _ & _ & Hret & _ & Hall & _ & _ & _ & _ & Hnone1).
  pose proof (@presskey_calls_in_registration_order plain 4 plain_bound [])
    as (_ & _ & _ & _ & _ & _ & _ & _ & _ & Hnone0 & _).
  pose proof (@presskey_calls_in_registration_order plain 3
                plain_bound_failing [])
    as (_ & _ & _ & _ & _ & _ & _ & Hfail & _).
  split; [|split; [|split; [|split]]].
  - split; [reflexivity|]. exact (Hret [1; 2] eq_refl).
  - assert (HF : Forall (fun func : @KeyFunc plain =>
                           forall w0, exists w1, func w0 = Returned w1)
                        (bound0 3 plain_bound)).
    { change (bound0 3 plain_bound) with [mark 1; mark 2].
      repeat constructor; intros w0; eexists; reflexivity. }
    split; [exact HF|]. exact (proj1 (Hall HF)).
  - split; [reflexivity|]. exact (Hnone0 eq_refl).
  - split; [reflexivity|]. exact (Hnone1 eq_refl).
  - split; [reflexivity|]. exact (Hfail [1] eq_refl).
Defined.

(** C8 as stated fails: with a failing callback registered first on key
    3 and a second callback after it, [presskey(3)] calls the first one
    only; the second one is skipped. *)
Lemma presskey_skips_after_failure :
  bound0 3 plain_bound_failing = [failing_mark 1; mark 2]
  /\ presskey 3 plain_bound_failing [] = ([failing_mark 1], Failed [1])
  /\ (presskey 3 plain_bound_failing []).1 <> bound0 3 plain_bound_failing.
Proof.
  split; [reflexivity|]. split; [reflexivity|].
  change (presskey 3 plain_bound_failing []).1 with [failing_mark 1].
  change (bound0 3 plain_bound_failing) with [failing_mark 1; mark 2].
  discriminate.
Qed.

(** C9 on a screen with one attached turtle, a scene and key
    callbacks. *)
Lemma clearscreen_keeps_turtles_witness :
  In 7%nat (turtles (add 7 plain_bound))
  /\ In 7%nat (turtles (clearscreen (add 7 plain_bound)))
  /\ turtles (clearscreen (add 7 plain_bound)) = [7%nat]
  /\ bound0 3 (clearscreen (add 7 plain_bound)) = [].
Proof.
  assert (Hin : In 7%nat (turtles (add 7 plain_bound)))
    by (left; reflexivity).
  split; [exact Hin|].
  split; [|split; reflexivity].
  pose proof (@clearscreen_keeps_turtles plain (add 7 plain_bound))
    as (_ & _ & _ & _ & _ & _ & _ & _ & Hiff).
  exact (proj1 (Hiff 7%nat) Hin).
Defined.

(** C5 at the speeds 6, 0 and 7, and for a [long] of 64 bits. *)
Lemma getAnimMS_duration_witness :
  (SFltb (Binary32.of_int 0) (Binary32.of_int 6) = true
   /\ getAnimMS 64 (Binary32.of_int 6) = Some 150)
  /\ (SFleb (Binary32.of_int 0) (Binary32.of_int 0) = true
      /\ getAnimMS 64 (Binary32.of_int 0) = Some 0)
  /\ (32 <= 64
      /\ List.map (fun speed => getAnimMS 64
                                  (Binary32.of_int (TurtleSpeed_value speed)))
                  [TS_FASTEST; TS_FAST; TS_NORMAL; TS_SLOW; TS_SLOWEST]
         = [Some 0; Some 30; Some 150; Some 240; Some 300])
  /\ (1 <= 7 <= 10 /\ getAnimMS 64 (Binary32.of_int 7) = Some ((11 - 7) * 30)).
Proof.
  split; [|split; [|split]]; cycle 3.
  { assert (Hbits : 32 <= 64) by lia.
    assert (Hn : 1 <= 7 <= 10) by lia.
    split; [exact Hn|].
    exact (proj1 (proj2 (proj2 (getAnimMS_duration 64 (Binary32.of_int 0))))
             7 Hbits Hn). }
  - split; [reflexivity|].
    rewrite (proj1 (proj2 (getAnimMS_duration 64 (Binary32.of_int 6)))
               eq_refl).
    reflexivity.
  - split; [reflexivity|].
    exact (proj1 (getAnimMS_duration 64 (Binary32.of_int 0)) eq_refl).
  - assert (Hbits : 32 <= 64) by lia.
    split; [exact Hbits|].
    exact (proj2 (proj2 (proj2 (getAnimMS_duration 64 (Binary32.of_int 0))))
             Hbits).
Defined.

(** [setundobuffer(5)] on the turtle after two movements, which holds
    three entries. *)
Lemma setundobuffer_keeps_fitting_stack_witness :
  (undobufferentries plain_drawn.1 <= N.max 5 1)%N
  /\ stateStack (setundobuffer 5 plain_drawn.1) = stateStack plain_drawn.1.
Proof.
  assert (Hfit : (undobufferentries plain_drawn.1 <= N.max 5 1)%N)
    by (vm_compute; discriminate).
  split; [exact Hfit|].
  exact (proj1 (@setundobuffer_keeps_fitting_stack plain 5 plain_drawn.1
                  Hfit)).
Defined.

(** [setundobuffer(0)] on the turtle after two movements. *)
Lemma setundobuffer_keeps_back_entry_witness :
  stateStack plain_drawn.1 <> []
  /\ last (stateStack (setundobuffer 0 plain_drawn.1))
     = last (stateStack plain_drawn.1)
  /\ List.map transform (stateStack (setundobuffer 0 plain_drawn.1))
     = [(5, 5)].
Proof.
  assert (Hne : stateStack plain_drawn.1 <> []) by (vm_compute; discriminate).
  split; [exact Hne|]. split; [|reflexivity].
  exact (proj2 (proj2 (@setundobuffer_keeps_back_entry plain 0
                         plain_drawn.1 Hne))).
Defined.

(** A callback registered for key 4 and what key 3 does. *)
Lemma key_registration_is_isolated_witness :
  4 <> 3
  /\ presskey 3 (onkeypress (failing_mark 9) 4 plain_bound) []
     = presskey 3 plain_bound [].
Proof.
  assert (Hne : 4 <> 3) by discriminate.
  split; [exact Hne|].
  exact (proj1 (proj1 (@key_registration_is_isolated plain (failing_mark 9)
                         4 3 plain_bound []) Hne)).
Defined.

(** Three functions registered on key 3 of a fresh screen. *)
Lemma presskey_composes_callbacks_witness :
  keyBindings0 plain_screen !! 3 = None
  /\ (presskey 3
        (onkeypress_all
           (List.map (fun g w0 => Returned (g w0))
                     [cons 1; cons 2; fun w : list Z => w ++ [3]])
           3 plain_screen) []).2
     = Returned [2; 1; 3].
Proof.
  split; [reflexivity|].
  exact (f_equal snd
           (@presskey_composes_callbacks plain
              [cons 1; cons 2; fun w : list Z => w ++ [3]] 3 plain_screen []
              eq_refl)).
Defined.

(** A callback registered for the right button and a left click. *)
Lemma new_click_callback_runs_last_witness :
  MOUSEB_LEFT <> MOUSEB_RIGHT
  /\ click 2 5 MOUSEB_LEFT
       (onclick mark_click MOUSEB_RIGHT (onclick_default mark_click
                                                         plain_screen)) []
     = click 2 5 MOUSEB_LEFT (onclick_default mark_click plain_screen) [].
Proof.
  assert (Hne : MOUSEB_LEFT <> MOUSEB_RIGHT) by discriminate.
  split; [exact Hne|].
  exact (proj1 (proj2 (@new_click_callback_runs_last plain mark_click
                         MOUSEB_RIGHT MOUSEB_LEFT 2 5
                         (onclick_default mark_click plain_screen) []))
           Hne).
Defined.

(** Dots of the sizes 7 and 6. *)
Lemma dot_radius_rounds_towards_zero_witness :
  0 <= 3
  /\ dot plain_circle 0 7 plain_turtle plain_screen
     = plain_circle 3 4 0 plain_turtle plain_screen
  /\ dot plain_circle 0 6 plain_turtle plain_screen
     = plain_circle 3 4 0 plain_turtle plain_screen.
Proof.
  assert (Hr : 0 <= 3) by lia.
  split; [exact Hr|].
  exact (proj1 (@dot_radius_rounds_towards_zero plain plain_circle 0 3
                  plain_turtle plain_screen) Hr).
Defined.

(** The setters on the fresh turtle. *)
Lemma attribute_set_then_get_witness :
  well_formed plain_turtle
  /\ fillcolor_get (fillcolor 255 plain_turtle plain_screen) = 255
  /\ width_get (width 4 plain_turtle plain_screen) = 4.
Proof.
  assert (Hwf : well_formed plain_turtle)
    by (split; [discriminate | vm_compute; discriminate]).
  split; [exact Hwf|].
  destruct (@attribute_set_then_get plain plain_turtle plain_screen 255 4 7
              Hwf) as (Hfill & _ & Hwidth & _).
  split; [exact Hfill | exact Hwidth].
Defined.

Lemma attribute_setters_change_one_attribute_witness :
  well_formed plain_turtle
  /\ Forall (fun t' => fillcolor_get t' = fillcolor_get plain_turtle)
            [pencolor 255 plain_turtle plain_screen;
             width 4 plain_turtle plain_screen;
             speed 7 plain_turtle plain_screen].
Proof.
  assert (Hwf : well_formed plain_turtle)
    by (split; [discriminate | vm_compute; discriminate]).
  split; [exact Hwf|].
  exact (proj1 (proj2 (@attribute_setters_change_one_attribute plain
                         plain_turtle plain_screen 255 4 7 Hwf))).
Defined.

(** The turtle after two movements, then a stamp, two undos and a
    smaller buffer. *)
Lemma undo_stack_stays_within_capacity_witness :
  within_capacity plain_drawn.1
  /\ (1 <= undobufferentries
             (run [CStamp; CUndo; CUndo; CSetUndoBuffer 2; CWidth 3]
                  plain_drawn.1 plain_drawn.2).1.2)%N
  /\ (undobufferentries
        (run [CStamp; CUndo; CUndo; CSetUndoBuffer 2; CWidth 3]
             plain_drawn.1 plain_drawn.2).1.2
      <= undoStackSize
           (run [CStamp; CUndo; CUndo; CSetUndoBuffer 2; CWidth 3]
                plain_drawn.1 plain_drawn.2).1.2)%N.
Proof.
  assert (Hw : within_capacity plain_drawn.1).
  { split; [split|]; vm_compute; discriminate. }
  split; [exact Hw|].
  exact (proj1 (@undo_stack_stays_within_capacity plain
                  [CStamp; CUndo; CUndo; CSetUndoBuffer 2; CWidth 3]
                  plain_drawn.1 plain_drawn.2) Hw).
Defined.

(** [setundobuffer(1)], then a movement, a stamp and a colour change. *)
Lemma undo_disabled_by_buffer_of_one_witness :
  stateStack plain_drawn.1 <> [] /\ (1 <= 1)%N
  /\ forallb (fun c => negb (is_setundobuffer c))
        [CMove (Movement.forward 3); CStamp; CPenColor 9] = true
  /\ undobufferentries
       (run [CMove (Movement.forward 3); CStamp; CPenColor 9]
            (setundobuffer 1 plain_drawn.1) plain_drawn.2).1.2 = 1%N.
Proof.
  assert (Hne : stateStack plain_drawn.1 <> []) by (vm_compute; discriminate).
  assert (Hsize : (1 <= 1)%N) by lia.
  split; [exact Hne|]. split; [exact Hsize|]. split; [reflexivity|].
  exact (proj1 (@undo_disabled_by_buffer_of_one plain
                  [CMove (Movement.forward 3); CStamp; CPenColor 9] 1
                  plain_drawn.1 plain_drawn.2 Hne Hsize eq_refl)).
Defined.

(** The setters on the turtle after two movements, each followed by
    [undo()]. *)
Lemma undo_reverts_attribute_change_witness :
  well_formed plain_drawn.1 /\ (2 <= undoStackSize plain_drawn.1)%N
  /\ Forall (fun t1 =>
               (undo t1 plain_drawn.2).1.1 = true
               /\ state (undo t1 plain_drawn.2).1.2 = state plain_drawn.1
               /\ objects (undo t1 plain_drawn.2).2 = objects plain_drawn.2)
            [fillcolor 255 plain_drawn.1 plain_drawn.2;
             pencolor 255 plain_drawn.1 plain_drawn.2;
             width 4 plain_drawn.1 plain_drawn.2;
             speed 7 plain_drawn.1 plain_drawn.2;
             degrees plain_drawn.1 plain_drawn.2;
             radians plain_drawn.1 plain_drawn.2].
Proof.
  assert (Hwf : well_formed plain_drawn.1)
    by (split; vm_compute; discriminate).
  assert (Hcap : (2 <= undoStackSize plain_drawn.1)%N)
    by (vm_compute; discriminate).
  split; [exact Hwf|]. split; [exact Hcap|].
  exact (@undo_reverts_attribute_change plain plain_drawn.1 plain_drawn.2
           255 4 7 Hwf Hcap).
Defined.

(** Three setter calls on the turtle after two movements, with a
    capacity of 4. *)
Lemma attribute_setters_fill_undo_stack_witness :
  within_capacity (setundobuffer 4 plain_drawn.1)
  /\ forallb is_attribute_setter [CWidth 2; CPenColor 9; CDegrees] = true
  /\ undobufferentries
       (run [CWidth 2; CPenColor 9; CDegrees]
            (setundobuffer 4 plain_drawn.1) plain_drawn.2).1.2
     = N.min (undobufferentries (setundobuffer 4 plain_drawn.1) + 3) 4.
Proof.
  assert (Hw : within_capacity (setundobuffer 4 plain_drawn.1)).
  { split; [split|]; vm_compute; discriminate. }
  split; [exact Hw|]. split; [reflexivity|].
  exact (proj1 (@attribute_setters_fill_undo_stack plain
                  [CWidth 2; CPenColor 9; CDegrees]
                  (setundobuffer 4 plain_drawn.1) plain_drawn.2 Hw eq_refl)).
Defined.
